(** * sansay_exporter: a shallow embedding of [collector.go]

    The exporter fetches an XML dump from a Sansay device, walks its
    database/table/row/field tree and republishes selected values as
    Prometheus gauges.  This file embeds the code of [collector.go] and
    proves the properties of its scrape-parse-map pipeline.

    Conventions.
    - A Go [string] is a sequence of bytes: Rocq's [string].
    - A [rune] is an [int32], carried as a [Z].
    - A Go function returning [(T, error)] returns a pair whose second
      component is an [option error]; [None] is [nil].
    - A run-time panic is an [Outcome] of its own, never an error value.
    - Sending on the metric channel, logging and the HTTP round trip are
      recorded, in program order, in a trace of [Event]s.
    - Functions of the Go standard library whose result is decided by data
      outside the repository (the Unicode case tables, [strconv.ParseFloat],
      [net/url], [net/http], [encoding/xml], the clock) are Section
      variables; every theorem holds for all of them.  So is the check of
      metric names in the Prometheus client library, which decides whether
      [prometheus.MustNewConstMetric] returns or panics in [addMetric]. *)

From Stdlib Require Import String Ascii List ZArith Bool Lia.
Import ListNotations.

Local Open Scope string_scope.
Local Open Scope Z_scope.

(** ** Errors, outcomes and the trace monad *)

(** A Go [error] as built by [errors.New] and by [fmt.Errorf] without [%w]:
    a value determined by its message. *)
Inductive error : Type :=
| errors_New (msg : string).

Definition Error (e : error) : string :=
  match e with errors_New msg => msg end.

(** The two ways a Go call ends: it returns, or the goroutine panics. *)
Inductive Outcome (A : Type) : Type :=
| Returned (a : A)
| Panicked (reason : string).

Arguments Returned {A} a.
Arguments Panicked {A} reason.

Definition obind {A B : Type} (o : Outcome A) (k : A -> Outcome B) : Outcome B :=
  match o with
  | Returned a => k a
  | Panicked r => Panicked r
  end.

(** ** Runes and the string conversions of the language *)

Definition rune : Type := Z.

Definition RuneError : rune := 0xFFFD.
Definition MaxRune : rune := 0x10FFFF.
Definition MaxASCII : rune := 0x7F.

Definition byte_val (c : ascii) : Z := Z.of_N (N_of_ascii c).
Definition byte_of (z : Z) : ascii := ascii_of_N (Z.to_N z).

(** What a leading byte announces: the length of the sequence and the
    range the second byte must lie in (package [unicode/utf8]). *)
Inductive Lead : Type :=
| Lead2
| Lead3 (lo hi : Z)
| Lead4 (lo hi : Z)
| LeadInvalid.

Definition lead_of (x0 : Z) : Lead :=
  if (0xC2 <=? x0) && (x0 <=? 0xDF) then Lead2
  else if x0 =? 0xE0 then Lead3 0xA0 0xBF
  else if x0 =? 0xED then Lead3 0x80 0x9F
  else if (0xE1 <=? x0) && (x0 <=? 0xEF) then Lead3 0x80 0xBF
  else if x0 =? 0xF0 then Lead4 0x90 0xBF
  else if (0xF1 <=? x0) && (x0 <=? 0xF3) then Lead4 0x80 0xBF
  else if x0 =? 0xF4 then Lead4 0x80 0x8F
  else LeadInvalid.

Definition in_range (lo hi x : Z) : bool := (lo <=? x) && (x <=? hi).
Definition is_cont (x : Z) : bool := in_range 0x80 0xBF x.

(** [[]rune(s)]: the code points of [s]; every byte that does not start a
    well-formed UTF-8 sequence yields [RuneError] and is skipped alone. *)
Fixpoint runes_of_string (s : string) : list rune :=
  match s with
  | EmptyString => []
  | String c0 s1 =>
    let x0 := byte_val c0 in
    if x0 <? 0x80 then x0 :: runes_of_string s1
    else
      match lead_of x0, s1 with
      | Lead2, String c1 s2 =>
        let x1 := byte_val c1 in
        if is_cont x1
        then Z.lor (Z.shiftl (Z.land x0 0x1F) 6) (Z.land x1 0x3F)
             :: runes_of_string s2
        else RuneError :: runes_of_string s1
      | Lead3 lo hi, String c1 (String c2 s3) =>
        let x1 := byte_val c1 in
        let x2 := byte_val c2 in
        if in_range lo hi x1 && is_cont x2
        then Z.lor (Z.shiftl (Z.land x0 0x0F) 12)
               (Z.lor (Z.shiftl (Z.land x1 0x3F) 6) (Z.land x2 0x3F))
             :: runes_of_string s3
        else RuneError :: runes_of_string s1
      | Lead4 lo hi, String c1 (String c2 (String c3 s4)) =>
        let x1 := byte_val c1 in
        let x2 := byte_val c2 in
        let x3 := byte_val c3 in
        if in_range lo hi x1 && is_cont x2 && is_cont x3
        then Z.lor (Z.shiftl (Z.land x0 0x07) 18)
               (Z.lor (Z.shiftl (Z.land x1 0x3F) 12)
                  (Z.lor (Z.shiftl (Z.land x2 0x3F) 6) (Z.land x3 0x3F)))
             :: runes_of_string s4
        else RuneError :: runes_of_string s1
      | _, _ => RuneError :: runes_of_string s1
      end
  end.

Definition cont_byte (r : rune) (shift : Z) : ascii :=
  byte_of (Z.lor 0x80 (Z.land (Z.shiftr r shift) 0x3F)).

(** The UTF-8 encoding of one rune; a surrogate or a value outside
    [0, MaxRune] is written as [RuneError]. *)
Definition encode_rune (r : rune) : string :=
  let r := if (r <? 0) || (MaxRune <? r) || in_range 0xD800 0xDFFF r
           then RuneError else r in
  if r <=? 0x7F then String (byte_of r) EmptyString
  else if r <=? 0x7FF then
    String (byte_of (Z.lor 0xC0 (Z.shiftr r 6)))
      (String (cont_byte r 0) EmptyString)
  else if r <=? 0xFFFF then
    String (byte_of (Z.lor 0xE0 (Z.shiftr r 12)))
      (String (cont_byte r 6) (String (cont_byte r 0) EmptyString))
  else
    String (byte_of (Z.lor 0xF0 (Z.shiftr r 18)))
      (String (cont_byte r 12)
         (String (cont_byte r 6) (String (cont_byte r 0) EmptyString))).

(** [string(rs)] for a rune slice [rs]. *)
Fixpoint string_of_runes (rs : list rune) : string :=
  match rs with
  | [] => EmptyString
  | r :: rs' => encode_rune r ++ string_of_runes rs'
  end.

Section Unicode.

(** [unicode.To(unicode.UpperCase, r)]: the lookup in the Unicode case
    tables, which [unicode.ToUpper] consults for a rune above
    [MaxASCII]. *)
Variable To_UpperCase : rune -> rune.

(** [unicode.ToUpper]. *)
Definition unicode_ToUpper (r : rune) : rune :=
  if r <=? MaxASCII then
    if (0x61 <=? r) && (r <=? 0x7A) then r - (0x61 - 0x41) else r
  else To_UpperCase r.

End Unicode.

(** [strings.HasPrefix]. *)
Definition strings_HasPrefix (s p : string) : bool := String.prefix p s.

Definition ascii_lower (c : ascii) : ascii :=
  let x := byte_val c in
  if (0x41 <=? x) && (x <=? 0x5A) then byte_of (x + (0x61 - 0x41)) else c.

Definition ascii_upper (c : ascii) : ascii :=
  let x := byte_val c in
  if (0x61 <=? x) && (x <=? 0x7A) then byte_of (x - (0x61 - 0x41)) else c.

Fixpoint map_bytes (f : ascii -> ascii) (s : string) : string :=
  match s with
  | EmptyString => EmptyString
  | String c s' => String (f c) (map_bytes f s')
  end.

Fixpoint isASCII (s : string) : bool :=
  match s with
  | EmptyString => true
  | String c s' => (byte_val c <? 0x80) && isASCII s'
  end.

(** What the specification calls a target that has a scheme: a scheme
    name (a letter, then letters, digits, [+], [-] or [.]) followed by
    [://]. *)
Definition is_alpha (c : ascii) : bool :=
  let x := byte_val c in
  in_range 0x41 0x5A x || in_range 0x61 0x7A x.

Definition is_scheme_char (c : ascii) : bool :=
  let x := byte_val c in
  is_alpha c || in_range 0x30 0x39 x || (x =? 0x2B) || (x =? 0x2D) || (x =? 0x2E).

Fixpoint scheme_ends (s : string) : bool :=
  match s with
  | EmptyString => false
  | String c s' =>
    if byte_val c =? 0x3A then String.prefix "//" s'
    else if is_scheme_char c then scheme_ends s'
    else false
  end.

Definition has_scheme (target : string) : bool :=
  match target with
  | EmptyString => false
  | String c s' => is_alpha c && scheme_ends s'
  end.

(** ** The data model *)

(** The [field] elements of a row: character data and the [name]
    attribute ([""] when the attribute is missing). *)
Record Field : Type := mkField {
  field_Text : string;
  field_Name : string
}.

Record Row : Type := mkRow {
  row_Text : string;
  row_Field : list Field
}.

Record Table : Type := mkTable {
  table_Text : string;
  table_Name : string;
  table_Row : list Row
}.

Record Database : Type := mkDatabase {
  database_Text : string;
  database_Name : string;
  database_Table : list Table
}.

(** The root of the document; [XMLName], which no code reads, is left
    out. *)
Record Sansay : Type := mkSansay {
  sansay_Text : string;
  sansay_Database : Database
}.

(** [var sansay Sansay]: the zero value. *)
Definition zero_Sansay : Sansay :=
  mkSansay "" (mkDatabase "" "" []).

Record Trunk : Type := mkTrunk {
  TrunkId : string;
  Alias : string;
  Fqdn : string;
  NumOrig : string;
  NumTerm : string;
  Cps : string;
  NumPeak : string;
  TotalCLZ : string;
  NumCLZCps : string;
  TotalLimit : string;
  CpsLimit : string
}.

(** [Trunk{}]. *)
Definition zero_Trunk : Trunk :=
  mkTrunk "" "" "" "" "" "" "" "" "" "" "".

(** ** Reflection over [*Trunk] *)

Module reflect.

Inductive Kind : Type := Ptr | Struct | String_ | Invalid.

Definition Kind_eqb (a b : Kind) : bool :=
  match a, b with
  | Ptr, Ptr | Struct, Struct | String_, String_ | Invalid, Invalid => true
  | _, _ => false
  end.

(** The fields of [Trunk], in declaration order. *)
Inductive StructField : Type :=
| fTrunkId | fAlias | fFqdn | fNumOrig | fNumTerm | fCps | fNumPeak
| fTotalCLZ | fNumCLZCps | fTotalLimit | fCpsLimit.

Definition fields : list StructField :=
  [fTrunkId; fAlias; fFqdn; fNumOrig; fNumTerm; fCps; fNumPeak;
   fTotalCLZ; fNumCLZCps; fTotalLimit; fCpsLimit].

Definition Name (f : StructField) : string :=
  match f with
  | fTrunkId => "TrunkId"
  | fAlias => "Alias"
  | fFqdn => "Fqdn"
  | fNumOrig => "NumOrig"
  | fNumTerm => "NumTerm"
  | fCps => "Cps"
  | fNumPeak => "NumPeak"
  | fTotalCLZ => "TotalCLZ"
  | fNumCLZCps => "NumCLZCps"
  | fTotalLimit => "TotalLimit"
  | fCpsLimit => "CpsLimit"
  end.

Definition StructField_eqb (f g : StructField) : bool :=
  String.eqb (Name f) (Name g).

(** [reflect.ValueOf(v).Kind()] and [.Elem().Kind()] for [v : *Trunk]. *)
Definition Kind_of_v : Kind := Ptr.
Definition Kind_of_Elem : Kind := Struct.

(** [rv.FieldByName(name)]: the field with exactly that name, or the
    zero [Value] ([None]), for which [IsValid] is false. *)
Definition FieldByName (name : string) : option StructField :=
  find (fun f => String.eqb (Name f) name) fields.

(** Every field of [Trunk] is declared [string]. *)
Definition Kind_of (f : StructField) : Kind := String_.

(** Every field of [Trunk] is exported and reached through a pointer. *)
Definition CanSet (f : StructField) : bool := true.

(** [fv.String()]. *)
Definition String (f : StructField) (t : Trunk) : string :=
  match f with
  | fTrunkId => TrunkId t
  | fAlias => Alias t
  | fFqdn => Fqdn t
  | fNumOrig => NumOrig t
  | fNumTerm => NumTerm t
  | fCps => Cps t
  | fNumPeak => NumPeak t
  | fTotalCLZ => TotalCLZ t
  | fNumCLZCps => NumCLZCps t
  | fTotalLimit => TotalLimit t
  | fCpsLimit => CpsLimit t
  end.

(** [fv.SetString(value)]: the pointee after the store. *)
Definition SetString (f : StructField) (value : string) (t : Trunk) : Trunk :=
  match t with
  | mkTrunk a b c d e g h i j k l =>
    match f with
    | fTrunkId => mkTrunk value b c d e g h i j k l
    | fAlias => mkTrunk a value c d e g h i j k l
    | fFqdn => mkTrunk a b value d e g h i j k l
    | fNumOrig => mkTrunk a b c value e g h i j k l
    | fNumTerm => mkTrunk a b c d value g h i j k l
    | fCps => mkTrunk a b c d e value h i j k l
    | fNumPeak => mkTrunk a b c d e g value i j k l
    | fTotalCLZ => mkTrunk a b c d e g h value j k l
    | fNumCLZCps => mkTrunk a b c d e g h i value k l
    | fTotalLimit => mkTrunk a b c d e g h i j value l
    | fCpsLimit => mkTrunk a b c d e g h i j k value
    end
  end.

End reflect.

(** ** The field mapper *)

Definition index_out_of_range : string :=
  "runtime error: index out of range [0] with length 0".

Section FieldMapper.

Variable To_UpperCase : rune -> rune.

(** The first three statements of [setField] and of [getField]:
    [nme := []rune(name); nme[0] = unicode.ToUpper(nme[0]);
    name = string(nme)].  Indexing an empty slice panics. *)
Definition capitalize (name : string) : Outcome string :=
  let nme := runes_of_string name in
  match nme with
  | [] => Panicked index_out_of_range
  | r0 :: rest =>
    let nme := unicode_ToUpper To_UpperCase r0 :: rest in
    Returned (string_of_runes nme)
  end.

(** [setField(v, name, value)] with [v] a [*Trunk]: the pointee after
    the call, and the error returned. *)
Definition setField (v : Trunk) (name value : string)
  : Outcome (Trunk * option error) :=
  obind (capitalize name) (fun name =>
  if negb (reflect.Kind_eqb reflect.Kind_of_v reflect.Ptr)
     || negb (reflect.Kind_eqb reflect.Kind_of_Elem reflect.Struct)
  then Returned (v, Some (errors_New "v must be pointer to struct"))
  else
    match reflect.FieldByName name with
    | None =>
      Returned (v, Some (errors_New ("not a field name: " ++ name)))
    | Some fv =>
      if negb (reflect.CanSet fv)
      then Returned (v, Some (errors_New ("cannot set field " ++ name)))
      else if negb (reflect.Kind_eqb (reflect.Kind_of fv) reflect.String_)
      then Returned (v, Some (errors_New (name ++ " is not a string field")))
      else Returned (reflect.SetString fv value v, None)
    end).

(** [getField(v, name)] with [v] a [*Trunk]: the pointee after the call,
    and the pair returned. *)
Definition getField (v : Trunk) (name : string)
  : Outcome (Trunk * (string * option error)) :=
  obind (capitalize name) (fun name =>
  if negb (reflect.Kind_eqb reflect.Kind_of_v reflect.Ptr)
     || negb (reflect.Kind_eqb reflect.Kind_of_Elem reflect.Struct)
  then Returned (v, ("", Some (errors_New "v must be pointer to struct")))
  else
    match reflect.FieldByName name with
    | None =>
      Returned (v, ("", Some (errors_New ("not a field name: " ++ name))))
    | Some fv =>
      if negb (reflect.Kind_eqb (reflect.Kind_of fv) reflect.String_)
      then Returned (v, ("", Some (errors_New (name ++ " is not a string field"))))
      else Returned (v, (reflect.String fv v, None))
    end).

End FieldMapper.

(** ** Metrics, requests and the trace *)

(** [prometheus.NewDesc(fqName, help, variableLabels, nil)]. *)
Record Desc : Type := NewDesc {
  fqName : string;
  help : string;
  variableLabels : list string
}.

Inductive ValueType : Type := CounterValue | GaugeValue | UntypedValue.

Inductive Level : Type := LevelInfo | LevelError.

Inductive LogValue : Type :=
| LogString (s : string)
| LogError (e : error)
| LogInt (n : Z).

(** [http.NewRequest(method, url, http.NoBody)] followed by
    [SetBasicAuth(username, password)]. *)
Record Request : Type := mkRequest {
  req_Method : string;
  req_URL : string;
  req_BasicAuth : string * string
}.

(** What the code reads of an [*http.Response]: the status code, and the
    result of [ioutil.ReadAll(resp.Body)]. *)
Record Response : Type := mkResponse {
  StatusCode : Z;
  Body : string * option error
}.

(** ** Stand-ins for the library

    Concrete values for the library functions the model is parametrised
    by, on which it is run on examples: a [ParseFloat] that reads unsigned
    decimal integers (and rejects everything else), case tables that map
    every rune to itself, a URL parser and a request builder that accept
    every target, a server that answers every request with a fixed status
    and body, a decoder that yields a fixed document, and the rule for
    metric names of the client library the exporter was written against,
    [[a-zA-Z_:][a-zA-Z0-9_:]*]. *)

Module Sample.

Definition float64 : Type := Z.

Definition digit (c : ascii) : option Z :=
  let x := byte_val c in
  if (0x30 <=? x) && (x <=? 0x39) then Some (x - 0x30) else None.

Fixpoint digits (acc : Z) (s : string) : option Z :=
  match s with
  | EmptyString => Some acc
  | String c s' =>
    match digit c with
    | Some d => digits (10 * acc + d) s'
    | None => None
    end
  end.

Definition ParseFloat (s : string) : float64 * option error :=
  match s with
  | EmptyString => (0, Some (errors_New "invalid syntax"))
  | _ =>
    match digits 0 s with
    | Some n => (n, None)
    | None => (0, Some (errors_New "invalid syntax"))
    end
  end.

Definition To_UpperCase (r : rune) : rune := r.

Definition ToLower_unicode (s : string) : string := s.

Definition url_Parse (target : string) : option error := None.

Definition http_NewRequest (method target : string) : option error := None.

Definition client_Do (status : Z) (body : string) (request : Request)
  : Response * option error :=
  (mkResponse status (body, None), None).

Definition client_Do_refused (request : Request) : Response * option error :=
  (mkResponse 0 ("", None), Some (errors_New "connection refused")).

Definition xml_Unmarshal (doc : Sansay) (body : string) : Sansay * option error :=
  (doc, None).

Definition elapsed : float64 := 0.

Definition is_name_char (c : ascii) : bool :=
  let x := byte_val c in
  is_alpha c || (x =? 0x5F) || (x =? 0x3A).

Fixpoint name_chars (s : string) : bool :=
  match s with
  | EmptyString => true
  | String c s' =>
    (is_name_char c || in_range 0x30 0x39 (byte_val c)) && name_chars s'
  end.

Definition IsValidMetricName (n : string) : bool :=
  match n with
  | EmptyString => false
  | String c s' => is_name_char c && name_chars s'
  end.

(** The error of a rejected name; [%q] is rendered without escapes. *)
Definition NewDesc_err (fqName : string) : option error :=
  if IsValidMetricName fqName then None
  else Some (errors_New
               (String "034" (fqName ++
                             String "034" " is not a valid metric name"))).

Definition document (tables : list Table) : Sansay :=
  mkSansay "" (mkDatabase "" "sansay" tables).

(** A trunk row whose [fqdn] field occurs twice. *)
Definition duplicate_fqdn : list Field :=
  [mkField "Detail" "fqdn"; mkField "Group" "fqdn"].

(** A group row with its eight counters. *)
Definition group_row : Row :=
  mkRow ""
    [mkField "T1" "trunkId"; mkField "A1" "alias"; mkField "Group" "fqdn";
     mkField "10" "numOrig"; mkField "11" "numTerm"; mkField "12" "cps";
     mkField "13" "numPeak"; mkField "14" "totalCLZ";
     mkField "15" "numCLZCps"; mkField "16" "totalLimit";
     mkField "17" "cpsLimit"].

(** A [system_stat] table with a numeric field, a state field and a field
    that is not a number. *)
Definition system_stat : Table :=
  mkTable "" "system_stat"
    [mkRow "" [mkField "3" "cpu"; mkField "active" "ha_current_state";
               mkField "n/a" "uptime"]].

(** A [system_stat] table whose first field has a hyphen in its name. *)
Definition system_stat_hyphen : Table :=
  mkTable "" "system_stat"
    [mkRow "" [mkField "3" "cpu-load"; mkField "4" "cpu"]].

(** A [system_stat] table with a field named as the duration gauge is. *)
Definition system_stat_duration : Table :=
  mkTable "" "system_stat" [mkRow "" [mkField "1" "scrape_duration_seconds"]].

Definition trunk_table : Table :=
  mkTable "" "XBResourceRealTimeStatList" [group_row].

Definition other_table : Table :=
  mkTable "" "cdr_stat" [mkRow "" [mkField "1" "calls"]].

(** A trunk table whose only row has a field without a name. *)
Definition unnamed_table : Table :=
  mkTable "" "XBResourceRealTimeStatList"
    [mkRow "" [mkField "Group" "fqdn"; mkField "7" ""]].

Definition sbc : string := "sbc.example.net:8888".

End Sample.

Section Exporter.

(** Go's [float64]. *)
Variable float64 : Type.

(** [strconv.ParseFloat(value, 64)]. *)
Variable ParseFloat : string -> float64 * option error.

(** The upper-case table behind [unicode.ToUpper]. *)
Variable To_UpperCase : rune -> rune.

(** [strings.ToLower] on a string that is not pure ASCII (it maps
    [unicode.ToLower] over the runes). *)
Variable ToLower_unicode : string -> string.

(** [url.Parse(target)]: its error. *)
Variable url_Parse : string -> option error.

(** [http.NewRequest(method, target, http.NoBody)]: its error. *)
Variable http_NewRequest : string -> string -> option error.

(** [client.Do(request)]. *)
Variable client_Do : Request -> Response * option error.

(** [xml.Unmarshal(body, &sansay)] on the zero [sansay]: the value left
    in [sansay], and the error. *)
Variable xml_Unmarshal : string -> Sansay * option error.

(** [time.Since(start).Seconds()] as read at the end of [Collect]. *)
Variable elapsed : float64.

(** The field [err] of the descriptor [prometheus.NewDesc(fqName, "", nil,
    nil)]: the error the client library records when it rejects [fqName]
    as a metric name, [nil] when it accepts it. *)
Variable NewDesc_err : string -> option error.

Inductive Metric : Type :=
| ConstMetric (desc : Desc) (valueType : ValueType) (value : float64)
    (labelValues : list string)
| InvalidMetric (desc : Desc) (err : error).

Inductive Event : Type :=
| Log (lvl : Level) (keyvals : list (string * LogValue))
| HttpDo (request : Request)
| Send (m : Metric).

(** A computation: the events it performed, in order, and how it ended. *)
Definition Exec (A : Type) : Type := list Event * Outcome A.

Definition ret {A : Type} (a : A) : Exec A := ([], Returned a).

Definition bind {A B : Type} (m : Exec A) (k : A -> Exec B) : Exec B :=
  match m with
  | (evs, Returned a) => let (evs', o) := k a in ((evs ++ evs')%list, o)
  | (evs, Panicked r) => (evs, Panicked r)
  end.

Definition emit (e : Event) : Exec unit := ([e], Returned tt).

Definition lift {A : Type} (o : Outcome A) : Exec A := ([], o).

(** [ch <- m]. *)
Definition send (m : Metric) : Exec unit := emit (Send m).

(** [for _, x := range xs { body }]. *)
Fixpoint for_range {A : Type} (xs : list A) (body : A -> Exec unit) : Exec unit :=
  match xs with
  | [] => ret tt
  | x :: xs' => bind (body x) (fun _ => for_range xs' body)
  end.

Notation "x <- m ;; k" := (bind m (fun x => k))
  (at level 100, m at next level, right associativity).
Notation "m ;;; k" := (bind m (fun _ => k))
  (at level 100, right associativity).

(** [strings.ToLower]. *)
Definition strings_ToLower (s : string) : string :=
  if isASCII s then map_bytes ascii_lower s else ToLower_unicode s.

Definition sansay_error : Desc :=
  NewDesc "sansay_error" "Error scraping target" [].

(** ** [ScrapeTarget] *)

Definition ScrapeTarget (target username password : string)
  : Exec (Sansay * option error) :=
  let sansay := zero_Sansay in
  let target :=
    if negb (strings_HasPrefix target "http://")
       && negb (strings_HasPrefix target "https://")
    then "http://" ++ target else target in
  match url_Parse target with
  | Some err =>
    emit (Log LevelError [("msg", LogString "Could not parse target URL");
                          ("err", LogError err)]) ;;;
    ret (sansay, Some err)
  | None =>
    match http_NewRequest "GET" target with
    | Some err =>
      emit (Log LevelError [("msg", LogString "Error creating HTTP request");
                            ("err", LogError err)]) ;;;
      ret (sansay, Some err)
    | None =>
      let request := mkRequest "GET" target (username, password) in
      emit (HttpDo request) ;;;
      match client_Do request with
      | (_, Some err) =>
        emit (Log LevelError [("msg", LogString "Error for HTTP request");
                              ("err", LogError err)]) ;;;
        ret (sansay, Some err)
      | (resp, None) =>
        emit (Log LevelInfo [("msg", LogString "Received HTTP response");
                             ("status_code", LogInt (StatusCode resp))]) ;;;
        match Body resp with
        | (_, Some err) =>
          emit (Log LevelInfo
                  [("msg", LogString "Failed to read HTTP response body");
                   ("err", LogError err)]) ;;;
          ret (sansay, Some err)
        | (body, None) =>
          match xml_Unmarshal body with
          | (sansay, Some err) =>
            emit (Log LevelError [("msg", LogString "Error parsing XML");
                                  ("err", LogError err)]) ;;;
            ret (sansay, Some err)
          | (sansay, None) => ret (sansay, None)
          end
        end
      end
    end
  end.

(** ** [addMetric] and [addTrunkMetrics] *)

(** [prometheus.MustNewConstMetric(desc, valueType, value)] on a
    descriptor without labels, as [addMetric] calls it on a name that
    comes from the wire: [NewConstMetric] returns the error of the
    descriptor, and [MustNewConstMetric] panics with it.  (The two other
    calls, in [addTrunkMetrics] and at the end of [Collect], pass names
    that are literals of lower-case letters and underscores, which the
    library accepts; they are the metric itself.) *)
Definition MustNewConstMetric (desc : Desc) (valueType : ValueType)
    (value : float64) : Outcome Metric :=
  match NewDesc_err (fqName desc) with
  | Some err => Panicked (Error err)
  | None => Returned (ConstMetric desc valueType value [])
  end.

Definition addMetric (name value : string) : Exec (option error) :=
  let metricName := "sansay_" ++ name in
  match ParseFloat value with
  | (_, Some err) => ret (Some err)
  | (floatValue, None) =>
    m <- lift (MustNewConstMetric (NewDesc metricName "" []) GaugeValue
                 floatValue) ;;
    send m ;;;
    ret None
  end.

Definition trunk_counters : list string :=
  ["NumOrig"; "NumTerm"; "Cps"; "NumPeak"; "TotalCLZ"; "NumCLZCps";
   "TotalLimit"; "CpsLimit"].

(** The body of the loop of [addTrunkMetrics]; [trunk] is the function's
    own copy of the record, which [getField] receives by address. *)
Definition addTrunkMetrics_body (trunk : Trunk) (metric : string) : Exec Trunk :=
  let metricName := "sansay_trunk_" ++ strings_ToLower metric in
  r <- lift (getField To_UpperCase trunk metric) ;;
  let '(trunk, (value, err)) := r in
  match err with
  | Some err => send (InvalidMetric sansay_error err) ;;; ret trunk
  | None =>
    match ParseFloat value with
    | (_, Some err) => send (InvalidMetric sansay_error err) ;;; ret trunk
    | (floatValue, None) =>
      send (ConstMetric
              (NewDesc metricName "" ["trunkgroup"; "alias"])
              GaugeValue floatValue [TrunkId trunk; Alias trunk]) ;;;
      ret trunk
    end
  end.

Fixpoint addTrunkMetrics_loop (metrics : list string) (trunk : Trunk)
  : Exec Trunk :=
  match metrics with
  | [] => ret trunk
  | metric :: metrics' =>
    trunk <- addTrunkMetrics_body trunk metric ;;
    addTrunkMetrics_loop metrics' trunk
  end.

Definition addTrunkMetrics (trunk : Trunk) : Exec (option error) :=
  addTrunkMetrics_loop trunk_counters trunk ;;;
  ret None.

(** ** [Collect] *)

Record collector : Type := mkCollector {
  target : string;
  username : string;
  password : string
}.

(** The body of [case "system_stat"] for one field. *)
Definition system_stat_field (field : Field) : Exec unit :=
  if String.eqb (field_Name field) "ha_pre_state" then ret tt
  else if String.eqb (field_Name field) "ha_current_state" then ret tt
  else addMetric (field_Name field) (field_Text field) ;;; ret tt.

(** The loop [for _, field := range row.Field] that fills [trunk]
    through [setField(&trunk, ...)]. *)
Fixpoint assemble (fields : list Field) (trunk : Trunk) : Exec Trunk :=
  match fields with
  | [] => ret trunk
  | field :: fields' =>
    r <- lift (setField To_UpperCase trunk (field_Name field) (field_Text field)) ;;
    let '(trunk, err) := r in
    match err with
    | Some err => send (InvalidMetric sansay_error err)
    | None => ret tt
    end ;;;
    assemble fields' trunk
  end.

(** The body of [case "XBResourceRealTimeStatList"] for one row. *)
Definition trunk_row (row : Row) : Exec unit :=
  let trunk := zero_Trunk in
  trunk <- assemble (row_Field row) trunk ;;
  if String.eqb (Fqdn trunk) "Group" then
    err <- addTrunkMetrics trunk ;;
    match err with
    | Some err => send (InvalidMetric sansay_error err)
    | None => ret tt
    end
  else ret tt.

(** The body of [for _, table := range sansay.Database.Table]. *)
Definition collect_table (table : Table) : Exec unit :=
  if String.eqb (table_Name table) "system_stat" then
    for_range (table_Row table) (fun row =>
      for_range (row_Field row) system_stat_field)
  else if String.eqb (table_Name table) "XBResourceRealTimeStatList" then
    for_range (table_Row table) trunk_row
  else ret tt.

Definition scrape_duration_seconds : Desc :=
  NewDesc "sansay_scrape_duration_seconds"
    "Total sansay time scrape took (walk and processing)." [].

Definition Collect (c : collector) : Exec unit :=
  r <- ScrapeTarget (target c) (username c) (password c) ;;
  let '(sansay, err) := r in
  match err with
  | Some err =>
    emit (Log LevelInfo [("msg", LogString "Error scraping target");
                         ("err", LogError err)]) ;;;
    send (InvalidMetric sansay_error err)
  | None =>
    for_range (database_Table (sansay_Database sansay)) collect_table ;;;
    send (ConstMetric scrape_duration_seconds GaugeValue elapsed [])
  end.

(** ** Observations on a trace *)

(** The metrics sent on the channel, in order. *)
Definition sent (evs : list Event) : list Metric :=
  flat_map (fun e => match e with Send m => [m] | _ => [] end) evs.

Definition is_gauge (m : Metric) : bool :=
  match m with
  | ConstMetric _ GaugeValue _ _ => true
  | _ => false
  end.

Definition is_invalid (m : Metric) : bool :=
  match m with
  | InvalidMetric _ _ => true
  | _ => false
  end.

Definition gauges (evs : list Event) : list Metric := filter is_gauge (sent evs).

Definition invalids (evs : list Event) : list Metric := filter is_invalid (sent evs).

Definition metric_name (m : Metric) : string :=
  match m with
  | ConstMetric d _ _ _ => fqName d
  | InvalidMetric d _ => fqName d
  end.

(** The requests that went out, in order. *)
Definition requests (evs : list Event) : list Request :=
  flat_map (fun e => match e with HttpDo r => [r] | _ => [] end) evs.

(** The trace with every logged status code blanked. *)
Definition redact_value (kv : string * LogValue) : string * LogValue :=
  if String.eqb (fst kv) "status_code" then (fst kv, LogInt 0) else kv.

Definition redact (e : Event) : Event :=
  match e with
  | Log lvl keyvals => Log lvl (map redact_value keyvals)
  | _ => e
  end.


(** The eight counters of a trunk record, each with the name of its
    gauge. *)
Definition counters : list (reflect.StructField * string) :=
  [(reflect.fNumOrig, "sansay_trunk_numorig");
   (reflect.fNumTerm, "sansay_trunk_numterm");
   (reflect.fCps, "sansay_trunk_cps");
   (reflect.fNumPeak, "sansay_trunk_numpeak");
   (reflect.fTotalCLZ, "sansay_trunk_totalclz");
   (reflect.fNumCLZCps, "sansay_trunk_numclzcps");
   (reflect.fTotalLimit, "sansay_trunk_totallimit");
   (reflect.fCpsLimit, "sansay_trunk_cpslimit")].

(** What the specification asks of one counter of a group record: its
    gauge, labeled with the trunk identifier and alias, when its text
    parses, and the error marker otherwise. *)
Definition counter_metric (trunk : Trunk) (c : reflect.StructField * string)
  : Metric :=
  match ParseFloat (reflect.String (fst c) trunk) with
  | (floatValue, None) =>
    ConstMetric (NewDesc (snd c) "" ["trunkgroup"; "alias"]) GaugeValue
      floatValue [TrunkId trunk; Alias trunk]
  | (_, Some err) => InvalidMetric sansay_error err
  end.

(** Whether a wire field addresses the attribute [fv] of the record:
    its capitalised name is the name of [fv]. *)
Definition names_attribute (fv : reflect.StructField) (field : Field) : bool :=
  match capitalize To_UpperCase (field_Name field) with
  | Returned name => String.eqb name (reflect.Name fv)
  | Panicked _ => false
  end.

(** The document has no unnamed field in a trunk row. *)
Definition trunk_fields_named (sansay : Sansay) : Prop :=
  forall table row field,
    In table (database_Table (sansay_Database sansay)) ->
    table_Name table = "XBResourceRealTimeStatList" ->
    In row (table_Row table) ->
    In field (row_Field row) ->
    field_Name field <> "".

(** The document has no [system_stat] field named as the duration gauge
    is. *)
Definition no_duration_field (sansay : Sansay) : Prop :=
  forall table row field,
    In table (database_Table (sansay_Database sansay)) ->
    table_Name table = "system_stat" ->
    In row (table_Row table) ->
    In field (row_Field row) ->
    field_Name field <> "scrape_duration_seconds".

Definition is_duration (m : Metric) : bool :=
  String.eqb (metric_name m) "sansay_scrape_duration_seconds".

(** The metrics of a trace that bear the name of the duration gauge. *)
Definition durations (evs : list Event) : list Metric :=
  filter is_duration (sent evs).

Definition duration_gauge : Metric :=
  ConstMetric scrape_duration_seconds GaugeValue elapsed [].

(** The marker the assembly loop sends for a field: none when the
    capitalised name is an attribute of the record. *)
Definition assembly_marker (field : Field) : list Metric :=
  match capitalize To_UpperCase (field_Name field) with
  | Returned name =>
    match reflect.FieldByName name with
    | Some _ => []
    | None =>
      [InvalidMetric sansay_error (errors_New ("not a field name: " ++ name))]
    end
  | Panicked _ => []
  end.

(** [Describe]: the descriptors it sends on its channel, in order. *)
Definition Describe (c : collector) : list Desc :=
  [NewDesc "dummy" "dummy" []].

Definition unnamed (field : Field) : bool := String.eqb (field_Name field) "".

(** Whether some row of some trunk table has a field without a name. *)
Definition unnamed_trunk_field (sansay : Sansay) : bool :=
  existsb (fun table =>
             String.eqb (table_Name table) "XBResourceRealTimeStatList"
             && existsb (fun row => existsb unnamed (row_Field row))
                  (table_Row table))
    (database_Table (sansay_Database sansay)).

(** What the client library asks of a metric built by
    [MustNewConstMetric]: as many label values as the descriptor has
    variable labels; here every such metric is a gauge as well, and every
    invalid metric carries the descriptor [sansay_error]. *)
Definition well_formed (m : Metric) : Prop :=
  match m with
  | ConstMetric desc valueType _ labelValues =>
    valueType = GaugeValue
    /\ length (variableLabels desc) = length labelValues
  | InvalidMetric desc _ => desc = sansay_error
  end.

Definition namespaced (m : Metric) : Prop :=
  String.prefix "sansay_" (metric_name m) = true.

(** What an event after the fetch may be: a log line, or the sending of
    a well-formed metric of the name space; never a request. *)
Definition after_fetch (e : Event) : Prop :=
  match e with
  | Send m => well_formed m /\ namespaced m
  | Log _ _ => True
  | HttpDo _ => False
  end.

(** Whether [Collect] hands the field of a [system_stat] row to
    [addMetric] with a text that parses and a name the client library
    rejects in a metric name. *)
Definition rejected (field : Field) : bool :=
  negb (String.eqb (field_Name field) "ha_pre_state")
  && negb (String.eqb (field_Name field) "ha_current_state")
  && match ParseFloat (field_Text field) with
     | (_, Some _) => false
     | (_, None) =>
       match NewDesc_err ("sansay_" ++ field_Name field) with
       | Some _ => true
       | None => false
       end
     end.

(** Whether some row of some [system_stat] table has such a field. *)
Definition rejected_stat_field (sansay : Sansay) : bool :=
  existsb (fun table =>
             String.eqb (table_Name table) "system_stat"
             && existsb (fun row => existsb rejected (row_Field row))
                  (table_Row table))
    (database_Table (sansay_Database sansay)).

(** The document has no such field. *)
Definition stat_names_accepted (sansay : Sansay) : Prop :=
  forall table row field,
    In table (database_Table (sansay_Database sansay)) ->
    table_Name table = "system_stat" ->
    In row (table_Row table) ->
    In field (row_Field row) ->
    rejected field = false.

(** * Properties *)

(** ** The string conversions *)

Lemma runes_of_string_nonempty (s : string) :
  s <> "" -> runes_of_string s <> [].
Proof.
  destruct s as [|c0 s1]; [congruence|]. intros _.
  cbn [runes_of_string].
  destruct (byte_val c0 <? 128); [discriminate|].
  destruct (lead_of (byte_val c0)); destruct s1 as [|c1 [|c2 [|c3 s4]]];
    repeat match goal with
           | |- context [if ?b then _ else _] => destruct b
           end; discriminate.
Qed.

Lemma capitalize_empty : capitalize To_UpperCase "" = Panicked index_out_of_range.
Proof. reflexivity. Qed.

Lemma capitalize_nonempty (name : string) :
  name <> "" -> exists name', capitalize To_UpperCase name = Returned name'.
Proof.
  intros H. unfold capitalize.
  destruct (runes_of_string name) as [|r0 rest] eqn:E.
  - exfalso. exact (runes_of_string_nonempty name H E).
  - eexists. reflexivity.
Qed.

Lemma capitalize_returns (name name' : string) :
  capitalize To_UpperCase name = Returned name' -> name <> "".
Proof.
  intros H ->. rewrite capitalize_empty in H. discriminate.
Qed.

(** ** Reflection *)

Lemma FieldByName_sound (name : string) (f : reflect.StructField) :
  reflect.FieldByName name = Some f -> reflect.Name f = name.
Proof.
  unfold reflect.FieldByName. intros H.
  apply find_some in H. destruct H as [_ H].
  apply String.eqb_eq. exact H.
Qed.

Lemma FieldByName_complete (f : reflect.StructField) :
  reflect.FieldByName (reflect.Name f) = Some f.
Proof. destruct f; reflexivity. Qed.

Lemma Name_injective (f g : reflect.StructField) :
  reflect.Name f = reflect.Name g -> f = g.
Proof.
  intros H. pose proof (FieldByName_complete f) as Hf.
  rewrite H, FieldByName_complete in Hf. congruence.
Qed.

Lemma String_SetString_same (f : reflect.StructField) (value : string) (t : Trunk) :
  reflect.String f (reflect.SetString f value t) = value.
Proof. destruct t, f; reflexivity. Qed.

Lemma String_SetString_other (f g : reflect.StructField) (value : string) (t : Trunk) :
  f <> g -> reflect.String g (reflect.SetString f value t) = reflect.String g t.
Proof. destruct t, f, g; intros H; try reflexivity; congruence. Qed.

(** ** The field mapper *)

(** [setField] once the name is capitalised: a store into the matching
    attribute, or the not-found error. *)
Lemma setField_capitalized (v : Trunk) (name value name' : string) :
  capitalize To_UpperCase name = Returned name' ->
  setField To_UpperCase v name value =
  Returned
    match reflect.FieldByName name' with
    | Some fv => (reflect.SetString fv value v, None)
    | None => (v, Some (errors_New ("not a field name: " ++ name')))
    end.
Proof.
  intros H. unfold setField. rewrite H. cbn [obind].
  cbn [reflect.Kind_eqb reflect.Kind_of_v reflect.Kind_of_Elem negb orb].
  destruct (reflect.FieldByName name'); reflexivity.
Qed.

Lemma getField_capitalized (v : Trunk) (name name' : string) :
  capitalize To_UpperCase name = Returned name' ->
  getField To_UpperCase v name =
  Returned
    (v, match reflect.FieldByName name' with
        | Some fv => (reflect.String fv v, None)
        | None => ("", Some (errors_New ("not a field name: " ++ name')))
        end).
Proof.
  intros H. unfold getField. rewrite H. cbn [obind].
  cbn [reflect.Kind_eqb reflect.Kind_of_v reflect.Kind_of_Elem negb orb].
  destruct (reflect.FieldByName name'); reflexivity.
Qed.

(** No name but the empty one makes the field mapper panic. *)
Lemma setField_returns (v : Trunk) (name value : string) :
  name <> "" -> exists v' err, setField To_UpperCase v name value = Returned (v', err).
Proof.
  intros H. destruct (capitalize_nonempty name H) as [name' E].
  rewrite (setField_capitalized v name value name' E).
  destruct (reflect.FieldByName name'); eauto.
Qed.

(** C10. For a non-empty field name whose capitalised form names an
    attribute of the record, [setField] returns no error and stores the
    value in that attribute and in no other; [getField] reads that
    attribute and returns the record as it was.  Whatever the name,
    [getField] never changes the record. *)
Theorem field_mapper_frame (v : Trunk) (name value name' : string)
    (fv : reflect.StructField) :
  capitalize To_UpperCase name = Returned name' ->
  reflect.FieldByName name' = Some fv ->
  (exists v',
      setField To_UpperCase v name value = Returned (v', None)
      /\ reflect.Name fv = name'
      /\ reflect.String fv v' = value
      /\ forall g, g <> fv -> reflect.String g v' = reflect.String g v)
  /\ getField To_UpperCase v name = Returned (v, (reflect.String fv v, None))
  /\ forall other v' r,
      getField To_UpperCase v other = Returned (v', r) -> v' = v.
Proof.
  intros Hcap Hfield. split; [|split].
  - exists (reflect.SetString fv value v).
    rewrite (setField_capitalized v name value name' Hcap), Hfield.
    repeat split.
    + apply FieldByName_sound. exact Hfield.
    + apply String_SetString_same.
    + intros g Hg. apply String_SetString_other. congruence.
  - rewrite (getField_capitalized v name name' Hcap), Hfield. reflexivity.
  - intros other v' r H.
    destruct (capitalize To_UpperCase other) as [other'|reason] eqn:E.
    + rewrite (getField_capitalized v other other' E) in H. congruence.
    + unfold getField in H. rewrite E in H. discriminate.
Qed.

(** ** The trace monad *)

Lemma bind_unfold {A B : Type} (m : Exec A) (k : A -> Exec B) :
  bind m k =
  match snd m with
  | Returned a => ((fst m ++ fst (k a))%list, snd (k a))
  | Panicked r => (fst m, Panicked r)
  end.
Proof.
  destruct m as [evs [a|r]]; cbn [bind fst snd]; [|reflexivity].
  destruct (k a); reflexivity.
Qed.

Lemma for_range_returns {A : Type} (xs : list A) (body : A -> Exec unit) :
  (forall x, In x xs -> snd (body x) = Returned tt) ->
  for_range xs body = (flat_map (fun x => fst (body x)) xs, Returned tt).
Proof.
  induction xs as [|x xs IH]; intros H; cbn [for_range flat_map].
  - reflexivity.
  - rewrite bind_unfold, (H x (or_introl eq_refl)).
    rewrite IH by (intros y Hy; apply H; right; exact Hy).
    reflexivity.
Qed.

Lemma flat_map_ext_In {A B : Type} (f g : A -> list B) (xs : list A) :
  (forall x, In x xs -> f x = g x) -> flat_map f xs = flat_map g xs.
Proof.
  induction xs as [|x xs IH]; intros H; [reflexivity|].
  cbn [flat_map]. rewrite (H x (or_introl eq_refl)).
  rewrite IH by (intros y Hy; apply H; right; exact Hy). reflexivity.
Qed.

Lemma sent_app (evs evs' : list Event) :
  sent (evs ++ evs') = (sent evs ++ sent evs')%list.
Proof. unfold sent. apply flat_map_app. Qed.

Lemma gauges_app (evs evs' : list Event) :
  gauges (evs ++ evs') = (gauges evs ++ gauges evs')%list.
Proof. unfold gauges. rewrite sent_app. apply filter_app. Qed.

Lemma sent_map_Send (ms : list Metric) : sent (map Send ms) = ms.
Proof.
  induction ms as [|m ms IH]; [reflexivity|].
  cbn [map sent flat_map app]. f_equal. exact IH.
Qed.

(** ** Flat projection *)

Lemma addMetric_unfold (name value : string) :
  addMetric name value =
  match ParseFloat value with
  | (floatValue, None) =>
    match NewDesc_err ("sansay_" ++ name) with
    | None =>
      ([Send (ConstMetric (NewDesc ("sansay_" ++ name) "" []) GaugeValue
                floatValue [])], Returned None)
    | Some err => ([], Panicked (Error err))
    end
  | (_, Some err) => ([], Returned (Some err))
  end.
Proof.
  unfold addMetric, MustNewConstMetric. cbn [fqName].
  destruct (ParseFloat value) as [v [err|]]; [reflexivity|].
  destruct (NewDesc_err _); reflexivity.
Qed.

(** A field of a [system_stat] row ends the cycle in a panic exactly when
    it is rejected, before it has sent anything. *)
Lemma system_stat_field_outcome (field : Field) :
  if rejected field
  then exists err,
      NewDesc_err ("sansay_" ++ field_Name field) = Some err
      /\ system_stat_field field = ([], Panicked (Error err))
  else snd (system_stat_field field) = Returned tt.
Proof.
  unfold rejected, system_stat_field.
  destruct (String.eqb (field_Name field) "ha_pre_state"); [reflexivity|].
  destruct (String.eqb (field_Name field) "ha_current_state"); [reflexivity|].
  rewrite addMetric_unfold. cbn [negb andb].
  destruct (ParseFloat (field_Text field)) as [v [err|]]; [reflexivity|].
  destruct (NewDesc_err _) as [err|]; [|reflexivity].
  exists err. split; reflexivity.
Qed.

Lemma system_stat_field_returns (field : Field) :
  rejected field = false -> snd (system_stat_field field) = Returned tt.
Proof.
  intros H. pose proof (system_stat_field_outcome field) as Ho.
  rewrite H in Ho. exact Ho.
Qed.

(** C2 (amended). In a table named [system_stat] none of whose fields
    has a text that parses under a name the client library rejects in a
    metric name: the fields named [ha_pre_state] and [ha_current_state]
    emit nothing; any other field emits exactly one unlabeled gauge
    [sansay_<name>] when its text parses, and nothing, no error marker
    either, when it does not.  The table emits what its fields emit, in
    order, and does not fail. *)
Theorem system_stat_projection (table : Table) :
  table_Name table = "system_stat" ->
  (forall row field,
      In row (table_Row table) -> In field (row_Field row) ->
      rejected field = false) ->
  collect_table table =
  (flat_map (fun row =>
     flat_map (fun field => fst (system_stat_field field)) (row_Field row))
     (table_Row table),
   Returned tt)
  /\ forall row field,
      In row (table_Row table) -> In field (row_Field row) ->
      (field_Name field = "ha_pre_state"
       \/ field_Name field = "ha_current_state" ->
       system_stat_field field = ([], Returned tt))
      /\ (field_Name field <> "ha_pre_state" ->
          field_Name field <> "ha_current_state" ->
          forall floatValue err,
            ParseFloat (field_Text field) = (floatValue, err) ->
            system_stat_field field =
            (match err with
             | None =>
               [Send (ConstMetric (NewDesc ("sansay_" ++ field_Name field) "" [])
                        GaugeValue floatValue [])]
             | Some _ => []
             end, Returned tt)).
Proof.
  intros Hname Hacc. split.
  - unfold collect_table. rewrite Hname. cbn [String.eqb Ascii.eqb Bool.eqb].
    cbn match.
    assert (Hrow : forall row : Row, In row (table_Row table) ->
               for_range (row_Field row) system_stat_field =
               (flat_map (fun field => fst (system_stat_field field))
                  (row_Field row), Returned tt)).
    { intros row Hin. apply for_range_returns.
      intros field Hfield. apply system_stat_field_returns.
      exact (Hacc row field Hin Hfield). }
    rewrite for_range_returns.
    + f_equal. apply flat_map_ext_In. intros row Hin.
      rewrite (Hrow row Hin). reflexivity.
    + intros row Hin. rewrite (Hrow row Hin). reflexivity.
  - intros row field Hin Hfield. split.
    + intros [H|H]; unfold system_stat_field; rewrite H; reflexivity.
    + intros H1 H2 v err HP.
      pose proof (Hacc row field Hin Hfield) as Hrej.
      unfold rejected in Hrej. unfold system_stat_field.
      apply String.eqb_neq in H1. apply String.eqb_neq in H2.
      rewrite H1, H2, HP in Hrej. cbn [negb andb] in Hrej.
      rewrite H1, H2, addMetric_unfold, HP.
      destruct err as [err|]; [reflexivity|].
      destruct (NewDesc_err _); [discriminate | reflexivity].
Qed.

(** C7. A table whose name is neither [system_stat] nor
    [XBResourceRealTimeStatList] emits nothing, whatever its rows hold,
    and does not fail. *)
Theorem unknown_table_skipped (table : Table) :
  table_Name table <> "system_stat" ->
  table_Name table <> "XBResourceRealTimeStatList" ->
  collect_table table = ([], Returned tt).
Proof.
  intros H1 H2. unfold collect_table.
  apply String.eqb_neq in H1. apply String.eqb_neq in H2.
  rewrite H1, H2. reflexivity.
Qed.

(** ** Trunk projection *)

Lemma addTrunkMetrics_body_counter (trunk : Trunk) (metric : string)
    (c : reflect.StructField * string) :
  capitalize To_UpperCase metric = Returned (reflect.Name (fst c)) ->
  "sansay_trunk_" ++ strings_ToLower metric = snd c ->
  addTrunkMetrics_body trunk metric =
  ([Send (counter_metric trunk c)], Returned trunk).
Proof.
  intros Hcap Hname. unfold addTrunkMetrics_body, counter_metric.
  rewrite (getField_capitalized trunk metric _ Hcap), FieldByName_complete.
  rewrite Hname. cbn [lift bind app].
  destruct (ParseFloat (reflect.String (fst c) trunk)) as [v [err|]];
    reflexivity.
Qed.

Lemma addTrunkMetrics_loop_cons (trunk : Trunk) (metric : string)
    (metrics : list string) (c : reflect.StructField * string) :
  capitalize To_UpperCase metric = Returned (reflect.Name (fst c)) ->
  "sansay_trunk_" ++ strings_ToLower metric = snd c ->
  addTrunkMetrics_loop (metric :: metrics) trunk =
  (Send (counter_metric trunk c) :: fst (addTrunkMetrics_loop metrics trunk),
   snd (addTrunkMetrics_loop metrics trunk)).
Proof.
  intros Hcap Hname. cbn [addTrunkMetrics_loop].
  rewrite (addTrunkMetrics_body_counter trunk metric c Hcap Hname).
  rewrite bind_unfold. reflexivity.
Qed.

(** [addTrunkMetrics] attempts the eight counters in order, whatever
    happens to the ones before, and sends one metric for each. *)
Lemma addTrunkMetrics_counters (trunk : Trunk) :
  addTrunkMetrics trunk =
  (map Send (map (counter_metric trunk) counters), Returned None).
Proof.
  unfold addTrunkMetrics, trunk_counters, counters.
  rewrite (addTrunkMetrics_loop_cons trunk "NumOrig" _
             (reflect.fNumOrig, "sansay_trunk_numorig") eq_refl eq_refl).
  rewrite (addTrunkMetrics_loop_cons trunk "NumTerm" _
             (reflect.fNumTerm, "sansay_trunk_numterm") eq_refl eq_refl).
  rewrite (addTrunkMetrics_loop_cons trunk "Cps" _
             (reflect.fCps, "sansay_trunk_cps") eq_refl eq_refl).
  rewrite (addTrunkMetrics_loop_cons trunk "NumPeak" _
             (reflect.fNumPeak, "sansay_trunk_numpeak") eq_refl eq_refl).
  rewrite (addTrunkMetrics_loop_cons trunk "TotalCLZ" _
             (reflect.fTotalCLZ, "sansay_trunk_totalclz") eq_refl eq_refl).
  rewrite (addTrunkMetrics_loop_cons trunk "NumCLZCps" _
             (reflect.fNumCLZCps, "sansay_trunk_numclzcps") eq_refl eq_refl).
  rewrite (addTrunkMetrics_loop_cons trunk "TotalLimit" _
             (reflect.fTotalLimit, "sansay_trunk_totallimit") eq_refl eq_refl).
  rewrite (addTrunkMetrics_loop_cons trunk "CpsLimit" _
             (reflect.fCpsLimit, "sansay_trunk_cpslimit") eq_refl eq_refl).
  reflexivity.
Qed.

(** The gauge names are the lower-cased counter names behind the trunk
    prefix, and the counters are those [addTrunkMetrics] walks. *)
Lemma counters_names :
  map (fun c => reflect.Name (fst c)) counters = trunk_counters
  /\ map snd counters =
     map (fun metric => "sansay_trunk_" ++ strings_ToLower metric) trunk_counters.
Proof. split; reflexivity. Qed.

(** One step of the assembly loop. *)
Lemma assemble_cons (field : Field) (fields : list Field) (trunk : Trunk) :
  assemble (field :: fields) trunk =
  match setField To_UpperCase trunk (field_Name field) (field_Text field) with
  | Panicked r => ([], Panicked r)
  | Returned (trunk', err) =>
    ((match err with
      | Some err => [Send (InvalidMetric sansay_error err)]
      | None => []
      end ++ fst (assemble fields trunk'))%list,
     snd (assemble fields trunk'))
  end.
Proof.
  cbn [assemble].
  destruct (setField To_UpperCase trunk (field_Name field) (field_Text field))
    as [[trunk' [err|]]|r]; cbn [lift bind send emit ret app];
    try reflexivity; destruct (assemble fields trunk'); reflexivity.
Qed.

(** The assembly loop sends error markers only. *)
Lemma assemble_no_gauge (fields : list Field) (trunk : Trunk) :
  gauges (fst (assemble fields trunk)) = [].
Proof.
  revert trunk. induction fields as [|field fields IH]; intros trunk.
  - reflexivity.
  - rewrite assemble_cons.
    destruct (setField To_UpperCase trunk (field_Name field) (field_Text field))
      as [[trunk' [err|]]|r]; cbn [fst app]; [| |reflexivity].
    + change (gauges (Send (InvalidMetric sansay_error err)
                        :: fst (assemble fields trunk')))
        with (gauges (fst (assemble fields trunk'))).
      apply IH.
    + apply IH.
Qed.

(** Every counter yields a gauge or an error marker, never both. *)
Lemma counter_metric_split (trunk : Trunk)
    (cs : list (reflect.StructField * string)) :
  (length (filter is_gauge (map (counter_metric trunk) cs))
   + length (filter is_invalid (map (counter_metric trunk) cs))
   = length cs)%nat.
Proof.
  induction cs as [|c cs IH]; [reflexivity|].
  cbn [map filter].
  assert (H : is_gauge (counter_metric trunk c)
              = negb (is_invalid (counter_metric trunk c))).
  { unfold counter_metric.
    destruct (ParseFloat (reflect.String (fst c) trunk)) as [v [err|]];
      reflexivity. }
  rewrite H.
  destruct (is_invalid (counter_metric trunk c)); cbn [negb length]; lia.
Qed.


(** ** Assembly of the trunk record *)

Lemma find_snoc {A : Type} (p : A -> bool) (xs : list A) (x : A) :
  find p (xs ++ [x]) =
  match find p xs with
  | Some y => Some y
  | None => if p x then Some x else None
  end.
Proof.
  induction xs as [|y xs IH]; cbn [app find].
  - reflexivity.
  - destruct (p y); [reflexivity | exact IH].
Qed.

(** What one [setField] of the loop leaves in an attribute. *)
Lemma setField_attribute (trunk : Trunk) (field : Field) :
  field_Name field <> "" ->
  exists trunk' err,
    setField To_UpperCase trunk (field_Name field) (field_Text field)
    = Returned (trunk', err)
    /\ forall fv,
        reflect.String fv trunk' =
        if names_attribute fv field then field_Text field
        else reflect.String fv trunk.
Proof.
  intros Hname. destruct (capitalize_nonempty (field_Name field) Hname) as [n Hn].
  rewrite (setField_capitalized trunk _ (field_Text field) n Hn).
  unfold names_attribute. rewrite Hn.
  destruct (reflect.FieldByName n) as [g|] eqn:Hg.
  - exists (reflect.SetString g (field_Text field) trunk), None.
    split; [reflexivity|]. intros fv.
    apply FieldByName_sound in Hg. subst n.
    destruct (String.eqb (reflect.Name g) (reflect.Name fv)) eqn:E.
    + apply String.eqb_eq, Name_injective in E. subst fv.
      apply String_SetString_same.
    + apply String_SetString_other. intros ->.
      rewrite String.eqb_refl in E. discriminate.
  - eexists trunk, _. split; [reflexivity|]. intros fv.
    destruct (String.eqb n (reflect.Name fv)) eqn:E; [|reflexivity].
    apply String.eqb_eq in E. subst n.
    rewrite FieldByName_complete in Hg. discriminate.
Qed.

(** The assembly loop returns when no field of the row is unnamed. *)
Lemma assemble_returns (fields : list Field) (trunk : Trunk) :
  Forall (fun field => field_Name field <> "") fields ->
  exists evs trunk', assemble fields trunk = (evs, Returned trunk').
Proof.
  intros Hall. revert trunk.
  induction Hall as [|field fields Hname Hall IH]; intros trunk.
  - exists [], trunk. reflexivity.
  - destruct (setField_returns trunk (field_Name field) (field_Text field) Hname)
      as (trunk1 & err & Hset).
    destruct (IH trunk1) as (evs & trunk' & Hrest).
    rewrite assemble_cons, Hset, Hrest. cbn [fst snd].
    eexists _, trunk'. reflexivity.
Qed.

(** C5 (amended). When no field of the row is unnamed, the assembly loop
    returns, and each attribute of the record holds the value of the last
    field of the row that addresses it (the value it had, when none
    does): a later field with the same name replaces what an earlier one
    stored. *)
Theorem assemble_last_field (fields : list Field) (trunk : Trunk) :
  Forall (fun field => field_Name field <> "") fields ->
  exists evs trunk',
    assemble fields trunk = (evs, Returned trunk')
    /\ forall fv,
        reflect.String fv trunk' =
        match find (names_attribute fv) (rev fields) with
        | Some field => field_Text field
        | None => reflect.String fv trunk
        end.
Proof.
  intros Hall. revert trunk.
  induction Hall as [|field fields Hname Hall IH]; intros trunk.
  - exists [], trunk. split; reflexivity.
  - destruct (setField_attribute trunk field Hname) as (trunk1 & err & Hset & Hattr).
    destruct (IH trunk1) as (evs & trunk' & Hrest & Hlast).
    rewrite assemble_cons, Hset, Hrest. cbn [fst snd].
    eexists _, trunk'. split; [reflexivity|]. intros fv.
    cbn [rev]. rewrite find_snoc, Hlast, Hattr.
    destruct (find (names_attribute fv) (rev fields)); [reflexivity|].
    destruct (names_attribute fv field); reflexivity.
Qed.

(** C4. The empty field name makes [setField] and [getField] panic on
    [nme[0]]; in a trunk row the panic leaves [Collect]'s loops at once,
    with the rest of the row and of the table unread. *)
Theorem empty_field_name_panics (v : Trunk) (value text : string)
    (fields : list Field) (rows : list Row) :
  setField To_UpperCase v "" value = Panicked index_out_of_range
  /\ getField To_UpperCase v "" = Panicked index_out_of_range
  /\ collect_table
       (mkTable text "XBResourceRealTimeStatList"
          (mkRow text (mkField value "" :: fields) :: rows))
     = ([], Panicked index_out_of_range).
Proof. repeat split. Qed.

(** Any other name the record does not have is answered with an error,
    and the record is left as it was. *)
Lemma unknown_field_name_error (v : Trunk) (name value name' : string) :
  capitalize To_UpperCase name = Returned name' ->
  reflect.FieldByName name' = None ->
  setField To_UpperCase v name value
  = Returned (v, Some (errors_New ("not a field name: " ++ name')))
  /\ getField To_UpperCase v name
     = Returned (v, ("", Some (errors_New ("not a field name: " ++ name')))).
Proof.
  intros Hcap Hnone.
  rewrite (setField_capitalized v name value name' Hcap).
  rewrite (getField_capitalized v name name' Hcap).
  rewrite Hnone. split; reflexivity.
Qed.

(** ** The fetch *)

(** [ScrapeTarget] always returns, and sends nothing on the channel. *)
Lemma ScrapeTarget_quiet (target username password : string) :
  sent (fst (ScrapeTarget target username password)) = []
  /\ exists r, snd (ScrapeTarget target username password) = Returned r.
Proof.
  unfold ScrapeTarget. cbv zeta.
  destruct (url_Parse _) as [err|]; [split; [reflexivity | eexists; reflexivity]|].
  destruct (http_NewRequest _ _) as [err|];
    [split; [reflexivity | eexists; reflexivity]|].
  destruct (client_Do _) as [resp [err|]];
    [split; [reflexivity | eexists; reflexivity]|].
  destruct (Body resp) as [body [err|]];
    [split; [reflexivity | eexists; reflexivity]|].
  destruct (xml_Unmarshal body) as [sansay [err|]];
    split; try reflexivity; eexists; reflexivity.
Qed.

(** C3. When [ScrapeTarget] returns an error, [Collect] logs it, sends
    one [sansay_error] marker carrying it, and returns: the marker is the
    only metric of the cycle, and no duration gauge follows. *)
Theorem scrape_failure_single_error (c : collector) (sevs : list Event)
    (sansay : Sansay) (err : error) :
  ScrapeTarget (target c) (username c) (password c)
  = (sevs, Returned (sansay, Some err)) ->
  Collect c =
  ((sevs ++ [Log LevelInfo [("msg", LogString "Error scraping target");
                            ("err", LogError err)];
             Send (InvalidMetric sansay_error err)])%list,
   Returned tt)
  /\ sent (fst (Collect c)) = [InvalidMetric sansay_error err]
  /\ durations (fst (Collect c)) = [].
Proof.
  intros Hscrape.
  pose proof (ScrapeTarget_quiet (target c) (username c) (password c)) as [Hq _].
  rewrite Hscrape in Hq. cbn [fst] in Hq.
  assert (HC : Collect c =
    ((sevs ++ [Log LevelInfo [("msg", LogString "Error scraping target");
                              ("err", LogError err)];
               Send (InvalidMetric sansay_error err)])%list,
     Returned tt)).
  { unfold Collect. rewrite Hscrape. reflexivity. }
  split; [exact HC|]. rewrite HC. cbn [fst]. unfold durations.
  rewrite sent_app, Hq. split; reflexivity.
Qed.

(** X14. A target that starts with neither ["http://"] nor
    ["https://"] is fetched exactly as the same target behind
    ["http://"]: the same URL is parsed and requested, the same lines are
    logged and the same result returned. *)
Lemma ScrapeTarget_prefixed (target username password : string) :
  strings_HasPrefix target "http://" = false ->
  strings_HasPrefix target "https://" = false ->
  ScrapeTarget target username password
  = ScrapeTarget ("http://" ++ target) username password.
Proof.
  intros H1 H2. unfold ScrapeTarget. rewrite H1, H2.
  assert (H : strings_HasPrefix ("http://" ++ target) "http://" = true)
    by (destruct target; reflexivity).
  rewrite H. reflexivity.
Qed.

(** X13. [ScrapeTarget] returns a document and no error exactly when the URL
    parses, the request is built, the round trip and the reading of the
    body succeed, and the body decodes; every other run returns an
    error. *)
Lemma ScrapeTarget_success (target username password : string)
    (sansay : Sansay) :
  snd (ScrapeTarget target username password) = Returned (sansay, None) <->
  exists target' resp body,
    target' = (if negb (strings_HasPrefix target "http://")
                  && negb (strings_HasPrefix target "https://")
               then "http://" ++ target else target)
    /\ url_Parse target' = None
    /\ http_NewRequest "GET" target' = None
    /\ client_Do (mkRequest "GET" target' (username, password)) = (resp, None)
    /\ Body resp = (body, None)
    /\ xml_Unmarshal body = (sansay, None).
Proof.
  unfold ScrapeTarget. cbv zeta.
  set (target' := if negb (strings_HasPrefix target "http://")
                     && negb (strings_HasPrefix target "https://")
                  then "http://" ++ target else target).
  split.
  - intros H. exists target'.
    destruct (url_Parse target') as [e|]; [discriminate|].
    destruct (http_NewRequest "GET" target') as [e|]; [discriminate|].
    destruct (client_Do _) as [resp [e|]]; [discriminate|].
    exists resp.
    destruct (Body resp) as [body [e|]]; [discriminate|].
    exists body.
    destruct (xml_Unmarshal body) as [sansay' [e|]]; [discriminate|].
    cbn in H. injection H as <-. repeat split.
  - intros (t & resp & body & -> & H1 & H2 & H3 & H4 & H5).
    fold target'. rewrite H1, H2, H3. cbn [bind emit ret fst snd].
    rewrite H4, H5. reflexivity.
Qed.

(** ** The duration gauge *)

Lemma durations_app (evs evs' : list Event) :
  durations (evs ++ evs') = (durations evs ++ durations evs')%list.
Proof. unfold durations. rewrite sent_app. apply filter_app. Qed.

Lemma for_range_no_duration {A : Type} (xs : list A) (body : A -> Exec unit) :
  (forall x, In x xs ->
     snd (body x) = Returned tt /\ durations (fst (body x)) = []) ->
  snd (for_range xs body) = Returned tt
  /\ durations (fst (for_range xs body)) = [].
Proof.
  intros H.
  rewrite for_range_returns by (intros x Hx; apply H; exact Hx).
  cbn [fst snd]. split; [reflexivity|].
  induction xs as [|x xs IH]; [reflexivity|].
  cbn [flat_map]. rewrite durations_app.
  rewrite (proj2 (H x (or_introl eq_refl))).
  apply IH. intros y Hy. apply H. right. exact Hy.
Qed.

Lemma assemble_no_duration (fields : list Field) (trunk : Trunk) :
  durations (fst (assemble fields trunk)) = [].
Proof.
  revert trunk. induction fields as [|field fields IH]; intros trunk.
  - reflexivity.
  - rewrite assemble_cons.
    destruct (setField To_UpperCase trunk (field_Name field) (field_Text field))
      as [[trunk' [err|]]|r]; cbn [fst app]; [| |reflexivity].
    + change (durations (Send (InvalidMetric sansay_error err)
                           :: fst (assemble fields trunk')))
        with (durations (fst (assemble fields trunk'))).
      apply IH.
    + apply IH.
Qed.

Lemma counter_metric_no_duration (trunk : Trunk)
    (c : reflect.StructField * string) :
  In c counters -> is_duration (counter_metric trunk c) = false.
Proof.
  intros Hin. unfold counter_metric.
  destruct (ParseFloat (reflect.String (fst c) trunk)) as [v [err|]];
    [reflexivity|].
  unfold counters in Hin. cbn [In] in Hin.
  repeat (destruct Hin as [<-|Hin]; [reflexivity|]). contradiction.
Qed.

Lemma trunk_row_no_duration (row : Row) :
  Forall (fun field => field_Name field <> "") (row_Field row) ->
  snd (trunk_row row) = Returned tt /\ durations (fst (trunk_row row)) = [].
Proof.
  intros Hnamed.
  destruct (assemble_returns (row_Field row) zero_Trunk Hnamed)
    as (aevs & trunk & Ha).
  pose proof (assemble_no_duration (row_Field row) zero_Trunk) as Hd.
  rewrite Ha in Hd. cbn [fst] in Hd.
  unfold trunk_row. rewrite bind_unfold, Ha. cbn [fst snd].
  destruct (String.eqb (Fqdn trunk) "Group").
  - rewrite bind_unfold, addTrunkMetrics_counters. cbn [fst snd ret].
    split; [reflexivity|].
    rewrite app_nil_r, durations_app, Hd. cbn [app].
    unfold durations. rewrite sent_map_Send.
    assert (H : forall cs, (forall c, In c cs -> In c counters) ->
                filter is_duration (map (counter_metric trunk) cs) = []).
    { induction cs as [|c cs IH]; intros Hsub; [reflexivity|].
      cbn [map filter].
      rewrite (counter_metric_no_duration trunk c (Hsub c (or_introl eq_refl))).
      apply IH. intros c' Hc'. apply Hsub. right. exact Hc'. }
    apply H. intros c Hc. exact Hc.
  - cbn [ret fst snd]. split; [reflexivity|]. rewrite app_nil_r. exact Hd.
Qed.

Lemma system_stat_field_no_duration (field : Field) :
  field_Name field <> "scrape_duration_seconds" ->
  durations (fst (system_stat_field field)) = [].
Proof.
  intros Hname. unfold system_stat_field.
  destruct (String.eqb (field_Name field) "ha_pre_state"); [reflexivity|].
  destruct (String.eqb (field_Name field) "ha_current_state"); [reflexivity|].
  rewrite addMetric_unfold.
  destruct (ParseFloat (field_Text field)) as [v [err|]]; [reflexivity|].
  destruct (NewDesc_err _); [reflexivity|].
  cbn [bind ret fst app]. unfold durations. cbn [sent flat_map app filter].
  unfold is_duration. cbn [metric_name fqName].
  destruct (String.eqb _ _) eqn:E; [|reflexivity].
  apply String.eqb_eq in E. cbn [String.append] in E.
  injection E as E. contradiction.
Qed.

Lemma collect_table_no_duration (table : Table) :
  (table_Name table = "XBResourceRealTimeStatList" ->
   forall row field, In row (table_Row table) -> In field (row_Field row) ->
                     field_Name field <> "") ->
  (table_Name table = "system_stat" ->
   forall row field, In row (table_Row table) -> In field (row_Field row) ->
                     rejected field = false) ->
  snd (collect_table table) = Returned tt
  /\ ((table_Name table = "system_stat" ->
       forall row field, In row (table_Row table) -> In field (row_Field row) ->
                         field_Name field <> "scrape_duration_seconds") ->
      durations (fst (collect_table table)) = []).
Proof.
  intros Hnamed Hacc. unfold collect_table.
  destruct (String.eqb (table_Name table) "system_stat") eqn:E1.
  - apply String.eqb_eq in E1.
    assert (Hret : forall row : Row, In row (table_Row table) ->
               snd (for_range (row_Field row) system_stat_field) = Returned tt).
    { intros row Hrow. rewrite for_range_returns; [reflexivity|].
      intros field Hfield. apply system_stat_field_returns.
      exact (Hacc E1 row field Hrow Hfield). }
    split.
    + rewrite for_range_returns; [reflexivity|]. exact Hret.
    + intros Hnodur. apply for_range_no_duration.
      intros row Hrow. split; [exact (Hret row Hrow)|].
      apply for_range_no_duration.
      intros field Hfield. split.
      * apply system_stat_field_returns. exact (Hacc E1 row field Hrow Hfield).
      * apply system_stat_field_no_duration.
        exact (Hnodur E1 row field Hrow Hfield).
  - destruct (String.eqb (table_Name table) "XBResourceRealTimeStatList") eqn:E2.
    + apply String.eqb_eq in E2.
      assert (Hrow : forall row, In row (table_Row table) ->
                 snd (trunk_row row) = Returned tt
                 /\ durations (fst (trunk_row row)) = []).
      { intros row Hin. apply trunk_row_no_duration.
        apply Forall_forall. intros field Hfield.
        exact (Hnamed E2 row field Hin Hfield). }
      destruct (for_range_no_duration (table_Row table) trunk_row Hrow) as [H1 H2].
      split; [exact H1 | intros _; exact H2].
    + split; [reflexivity | intros _; reflexivity].
Qed.

(** C6 (amended). When the fetch and the parse succeed, no field of a
    trunk row is unnamed and no [system_stat] field has a text that parses
    under a name the client library rejects in a metric name, [Collect]
    processes every table, in order, and then sends the duration gauge as
    the last metric of the cycle, whatever errors the projection
    reported.  It is the only metric of the cycle with that name provided
    no [system_stat] field is named [scrape_duration_seconds]. *)
Theorem duration_gauge_last (c : collector) (sevs : list Event)
    (sansay : Sansay) :
  ScrapeTarget (target c) (username c) (password c)
  = (sevs, Returned (sansay, None)) ->
  trunk_fields_named sansay ->
  stat_names_accepted sansay ->
  let pevs := flat_map (fun table => fst (collect_table table))
                (database_Table (sansay_Database sansay)) in
  Collect c = ((sevs ++ pevs ++ [Send duration_gauge])%list, Returned tt)
  /\ sent (fst (Collect c)) = (sent pevs ++ [duration_gauge])%list
  /\ (no_duration_field sansay ->
      durations (fst (Collect c)) = [duration_gauge]).
Proof.
  intros Hscrape Hnamed Hacc pevs.
  pose proof (ScrapeTarget_quiet (target c) (username c) (password c)) as [Hq _].
  rewrite Hscrape in Hq. cbn [fst] in Hq.
  set (tables := database_Table (sansay_Database sansay)) in *.
  assert (Htab : forall table, In table tables ->
            snd (collect_table table) = Returned tt
            /\ (no_duration_field sansay ->
                durations (fst (collect_table table)) = [])).
  { intros table Hin.
    destruct (collect_table_no_duration table) as [H1 H2].
    - intros E row field Hrow Hfield.
      exact (Hnamed table row field Hin E Hrow Hfield).
    - intros E row field Hrow Hfield.
      exact (Hacc table row field Hin E Hrow Hfield).
    - split; [exact H1|]. intros Hnodur. apply H2.
      intros E row field Hrow Hfield.
      exact (Hnodur table row field Hin E Hrow Hfield). }
  assert (Hproj : for_range tables collect_table = (pevs, Returned tt)).
  { apply for_range_returns. intros table Hin. apply Htab. exact Hin. }
  assert (HC : Collect c =
    ((sevs ++ pevs ++ [Send duration_gauge])%list, Returned tt)).
  { unfold Collect. rewrite Hscrape. cbn [bind]. fold tables.
    rewrite bind_unfold, Hproj. reflexivity. }
  split; [exact HC|]. rewrite HC. cbn [fst].
  split.
  - rewrite !sent_app, Hq. reflexivity.
  - intros Hnodur. rewrite !durations_app.
    unfold durations at 1. rewrite Hq. cbn [filter app].
    destruct (for_range_no_duration tables collect_table) as [_ Hd].
    + intros table Hin. destruct (Htab table Hin) as [H1 H2].
      split; [exact H1 | exact (H2 Hnodur)].
    + rewrite Hproj in Hd. cbn [fst] in Hd. rewrite Hd. reflexivity.
Qed.

(** ** The target *)

Lemma prefix_append (p s : string) :
  String.prefix p s = true -> exists rest, s = p ++ rest.
Proof.
  revert s. induction p as [|a p IH]; intros s H.
  - exists s. reflexivity.
  - destruct s as [|b s]; [discriminate|]. cbn [String.prefix] in H.
    destruct (ascii_dec a b) as [<-|]; [|discriminate].
    destruct (IH s H) as [rest ->]. exists rest. reflexivity.
Qed.

Lemma has_scheme_http (target : string) :
  strings_HasPrefix target "http://" = true
  \/ strings_HasPrefix target "https://" = true ->
  has_scheme target = true.
Proof.
  unfold strings_HasPrefix.
  intros [H|H]; apply prefix_append in H; destruct H as [rest ->];
    destruct rest; reflexivity.
Qed.

(** C9 (amended). Every request [ScrapeTarget] makes is a [GET] with the
    given credentials.  Its URL is the target behind ["http://"] when the
    target starts with neither ["http://"] nor ["https://"], as every
    target without a scheme does, and the target unchanged when it starts
    with one of the two; a target with any other scheme is prefixed as
    well. *)
Theorem request_target (target username password : string) (request : Request) :
  In request (requests (fst (ScrapeTarget target username password))) ->
  req_Method request = "GET"
  /\ req_BasicAuth request = (username, password)
  /\ (strings_HasPrefix target "http://" = false ->
      strings_HasPrefix target "https://" = false ->
      req_URL request = "http://" ++ target)
  /\ (strings_HasPrefix target "http://" = true
      \/ strings_HasPrefix target "https://" = true ->
      req_URL request = target)
  /\ (has_scheme target = false -> req_URL request = "http://" ++ target).
Proof.
  intros Hin.
  assert (Hreq : request =
            mkRequest "GET"
              (if negb (strings_HasPrefix target "http://")
                  && negb (strings_HasPrefix target "https://")
               then "http://" ++ target else target)
              (username, password)).
  { revert Hin. unfold ScrapeTarget. cbv zeta.
    destruct (url_Parse _) as [err|]; [intros []|].
    destruct (http_NewRequest _ _) as [err|]; [intros []|].
    destruct (client_Do _) as [resp [err|]];
      [cbn; intros [H|[]]; symmetry; exact H|].
    destruct (Body resp) as [body [err|]];
      [cbn; intros [H|[]]; symmetry; exact H|].
    destruct (xml_Unmarshal body) as [sansay [err|]];
      cbn; intros [H|[]]; symmetry; exact H. }
  subst request. cbn [req_Method req_BasicAuth req_URL].
  split; [reflexivity|]. split; [reflexivity|]. split; [|split].
  - intros -> ->. reflexivity.
  - intros [->| ->]; [reflexivity|].
    destruct (strings_HasPrefix target "http://"); reflexivity.
  - intros Hno.
    destruct (strings_HasPrefix target "http://") eqn:E1.
    + rewrite (has_scheme_http target (or_introl E1)) in Hno. discriminate.
    + destruct (strings_HasPrefix target "https://") eqn:E2; [|reflexivity].
      rewrite (has_scheme_http target (or_intror E2)) in Hno. discriminate.
Qed.

(** * Further properties *)

(** ** Names of ASCII bytes *)

Lemma byte_of_byte_val (c : ascii) : byte_of (byte_val c) = c.
Proof.
  unfold byte_of, byte_val. rewrite N2Z.id. apply ascii_N_embedding.
Qed.

Lemma byte_val_nonneg (c : ascii) : 0 <= byte_val c.
Proof. unfold byte_val. apply N2Z.is_nonneg. Qed.

Lemma encode_rune_ascii (r : rune) :
  0 <= r <= 0x7F -> encode_rune r = String (byte_of r) EmptyString.
Proof.
  intros Hr. unfold encode_rune, in_range, MaxRune.
  assert (H1 : (r <? 0) = false) by (apply Z.ltb_ge; lia).
  assert (H2 : (0x10FFFF <? r) = false) by (apply Z.ltb_ge; lia).
  assert (H3 : (0xD800 <=? r) = false) by (apply Z.leb_gt; lia).
  assert (H4 : (r <=? 0x7F) = true) by (apply Z.leb_le; lia).
  rewrite H1, H2, H3. cbn [orb andb]. rewrite H4. reflexivity.
Qed.

(** A string of ASCII bytes survives the conversion to runes and back. *)
Lemma string_of_runes_ascii (s : string) :
  isASCII s = true -> string_of_runes (runes_of_string s) = s.
Proof.
  induction s as [|c s IH]; [reflexivity|].
  cbn [isASCII runes_of_string]. intros H.
  apply andb_true_iff in H. destruct H as [Hc Hs].
  rewrite Hc. cbn [string_of_runes].
  rewrite encode_rune_ascii, byte_of_byte_val, (IH Hs); [reflexivity|].
  apply Z.ltb_lt in Hc. pose proof (byte_val_nonneg c). lia.
Qed.

(** X3. On a non-empty name of ASCII bytes the capitalisation of
    [setField] and [getField] upper-cases the first byte when it is a
    lower-case letter and changes nothing else, so that a wire name and
    the same name with its first letter in upper case are one name to
    both functions. *)
Theorem capitalize_ascii (c : ascii) (rest : string) :
  isASCII (String c rest) = true ->
  capitalize To_UpperCase (String c rest) = Returned (String (ascii_upper c) rest)
  /\ (forall v value,
        setField To_UpperCase v (String c rest) value
        = setField To_UpperCase v (String (ascii_upper c) rest) value)
  /\ (forall v,
        getField To_UpperCase v (String c rest)
        = getField To_UpperCase v (String (ascii_upper c) rest)).
Proof.
  intros H.
  assert (Hcap : forall c0 : ascii, isASCII (String c0 rest) = true ->
            capitalize To_UpperCase (String c0 rest)
            = Returned (String (ascii_upper c0) rest)).
  { intros c0 H0. cbn [isASCII] in H0.
    apply andb_true_iff in H0. destruct H0 as [Hc Hs].
    unfold capitalize. cbn [runes_of_string]. rewrite Hc.
    cbn [string_of_runes]. rewrite (string_of_runes_ascii rest Hs).
    apply Z.ltb_lt in Hc. pose proof (byte_val_nonneg c0) as Hn.
    unfold unicode_ToUpper, MaxASCII, ascii_upper.
    assert (Hle : (byte_val c0 <=? 0x7F) = true) by (apply Z.leb_le; lia).
    rewrite Hle.
    destruct ((0x61 <=? byte_val c0) && (byte_val c0 <=? 0x7A)) eqn:E.
    - apply andb_true_iff in E. destruct E as [E1 E2].
      apply Z.leb_le in E1. apply Z.leb_le in E2.
      rewrite encode_rune_ascii by lia. reflexivity.
    - rewrite encode_rune_ascii by lia. rewrite byte_of_byte_val. reflexivity. }
  assert (Hup : isASCII (String (ascii_upper c) rest) = true
                /\ ascii_upper (ascii_upper c) = ascii_upper c).
  { cbn [isASCII] in *. apply andb_true_iff in H. destruct H as [Hc Hs].
    rewrite Hs, andb_true_r. unfold ascii_upper.
    destruct ((0x61 <=? byte_val c) && (byte_val c <=? 0x7A)) eqn:E.
    - apply andb_true_iff in E. destruct E as [E1 E2].
      apply Z.leb_le in E1. apply Z.leb_le in E2.
      assert (Hb : byte_val (byte_of (byte_val c - (0x61 - 0x41)))
                   = byte_val c - (0x61 - 0x41)).
      { unfold byte_val at 1, byte_of.
        rewrite N_ascii_embedding by (apply N2Z.inj_lt; rewrite Z2N.id; lia).
        apply Z2N.id. lia. }
      rewrite Hb. split; [apply Z.ltb_lt; lia|].
      assert (E3 : (0x61 <=? byte_val c - (0x61 - 0x41)) = false)
        by (apply Z.leb_gt; lia).
      rewrite E3. reflexivity.
    - rewrite E. split; [exact Hc | reflexivity]. }
  destruct Hup as [Hup Hidem].
  pose proof (Hcap c H) as H1. pose proof (Hcap (ascii_upper c) Hup) as H2.
  rewrite Hidem in H2.
  split; [exact H1|]. split.
  - intros v value. unfold setField. rewrite H1, H2. reflexivity.
  - intros v. unfold getField. rewrite H1, H2. reflexivity.
Qed.

(** ** The field mapper, composed *)

(** X1. What [setField] stored under a name, [getField] reads back under
    that name, at once and after any further [setField] under a name with
    another capitalised form. *)
Theorem set_then_get (v v' : Trunk) (name value : string) :
  setField To_UpperCase v name value = Returned (v', None) ->
  getField To_UpperCase v' name = Returned (v', (value, None))
  /\ forall other value' v'' err,
      capitalize To_UpperCase other <> capitalize To_UpperCase name ->
      setField To_UpperCase v' other value' = Returned (v'', err) ->
      getField To_UpperCase v'' name = Returned (v'', (value, None)).
Proof.
  intros Hset.
  destruct (capitalize To_UpperCase name) as [n|r] eqn:Hn;
    [|unfold setField in Hset; rewrite Hn in Hset; discriminate].
  rewrite (setField_capitalized v name value n Hn) in Hset.
  destruct (reflect.FieldByName n) as [fv|] eqn:Hfv; [|discriminate].
  injection Hset as <-. split.
  - rewrite (getField_capitalized _ name n Hn), Hfv, String_SetString_same.
    reflexivity.
  - intros other value' v'' err Hneq Hset'.
    destruct (capitalize To_UpperCase other) as [n'|r] eqn:Hn';
      [|unfold setField in Hset'; rewrite Hn' in Hset'; discriminate].
    rewrite (setField_capitalized _ other value' n' Hn') in Hset'.
    rewrite (getField_capitalized v'' name n Hn), Hfv.
    destruct (reflect.FieldByName n') as [g|] eqn:Hg; injection Hset' as <- <-.
    + rewrite String_SetString_other, String_SetString_same; [reflexivity|].
      intros ->. apply FieldByName_sound in Hg. apply FieldByName_sound in Hfv.
      congruence.
    + rewrite String_SetString_same. reflexivity.
Qed.

(** X2. A non-empty name never makes the field mapper panic.  [setField]
    and [getField] accept the same names, those whose capitalised form is
    an attribute of the record; for any other name both return the error
    [not a field name], [getField] with the empty string, and the record
    is left as it was.  The other errors of the two functions never
    occur. *)
Theorem field_mapper_errors (v : Trunk) (name value : string) :
  name <> "" ->
  exists name' v' err s err',
    capitalize To_UpperCase name = Returned name'
    /\ setField To_UpperCase v name value = Returned (v', err)
    /\ getField To_UpperCase v name = Returned (v, (s, err'))
    /\ (err = None <-> exists fv, reflect.Name fv = name')
    /\ (err = None <-> err' = None)
    /\ (err <> None ->
        v' = v /\ s = ""
        /\ err = Some (errors_New ("not a field name: " ++ name'))
        /\ err' = err).
Proof.
  intros Hname. destruct (capitalize_nonempty name Hname) as [n Hn].
  exists n.
  rewrite (setField_capitalized v name value n Hn).
  rewrite (getField_capitalized v name n Hn).
  destruct (reflect.FieldByName n) as [fv|] eqn:Hfv.
  - exists (reflect.SetString fv value v), None, (reflect.String fv v), None.
    split; [exact Hn|]. split; [reflexivity|]. split; [reflexivity|].
    split; [|split].
    + split; [|reflexivity].
      intros _. exists fv. apply FieldByName_sound. exact Hfv.
    + split; reflexivity.
    + intros H. contradiction.
  - exists v, (Some (errors_New ("not a field name: " ++ n))), "",
      (Some (errors_New ("not a field name: " ++ n))).
    split; [exact Hn|]. split; [reflexivity|]. split; [reflexivity|].
    split; [|split].
    + split; [discriminate|].
      intros [fv <-]. rewrite FieldByName_complete in Hfv. discriminate.
    + split; discriminate.
    + intros _. repeat split.
Qed.

Lemma SetString_commute (f g : reflect.StructField) (x y : string) (v : Trunk) :
  f <> g ->
  reflect.SetString g y (reflect.SetString f x v)
  = reflect.SetString f x (reflect.SetString g y v).
Proof. destruct v, f, g; intros H; try reflexivity; congruence. Qed.

(** X4. Two [setField] calls under names with different capitalised
    forms commute: in either order they leave the same record and return
    the same errors. *)
Theorem setField_commute (v v1 v12 : Trunk) (n1 x1 n2 x2 : string)
    (e1 e2 : option error) :
  capitalize To_UpperCase n1 <> capitalize To_UpperCase n2 ->
  setField To_UpperCase v n1 x1 = Returned (v1, e1) ->
  setField To_UpperCase v1 n2 x2 = Returned (v12, e2) ->
  exists v2,
    setField To_UpperCase v n2 x2 = Returned (v2, e2)
    /\ setField To_UpperCase v2 n1 x1 = Returned (v12, e1).
Proof.
  intros Hneq H1 H2.
  destruct (capitalize To_UpperCase n1) as [a1|r] eqn:Ha1;
    [|unfold setField in H1; rewrite Ha1 in H1; discriminate].
  destruct (capitalize To_UpperCase n2) as [a2|r] eqn:Ha2;
    [|unfold setField in H2; rewrite Ha2 in H2; discriminate].
  rewrite (setField_capitalized v n1 x1 a1 Ha1) in H1.
  rewrite (setField_capitalized v1 n2 x2 a2 Ha2) in H2.
  rewrite (setField_capitalized v n2 x2 a2 Ha2).
  destruct (reflect.FieldByName a1) as [f|] eqn:Hf;
    destruct (reflect.FieldByName a2) as [g|] eqn:Hg;
    injection H1 as <- <-; injection H2 as <- <-;
    eexists; (split; [reflexivity|]);
    rewrite (setField_capitalized _ n1 x1 a1 Ha1), Hf; try reflexivity.
  rewrite SetString_commute; [reflexivity|].
  intros ->. apply FieldByName_sound in Hf. apply FieldByName_sound in Hg.
  congruence.
Qed.

(** X5. In a row without unnamed field the assembly loop sends, in the
    order of the fields, one [sansay_error] marker [not a field name] for
    each field whose capitalised name is no attribute of the record, and
    nothing else; the fields after such a field are still stored. *)
Theorem assemble_markers (fields : list Field) (trunk : Trunk) :
  Forall (fun field => field_Name field <> "") fields ->
  fst (assemble fields trunk) = map Send (flat_map assembly_marker fields).
Proof.
  intros Hall. revert trunk.
  induction Hall as [|field fields Hname Hall IH]; intros trunk.
  - reflexivity.
  - rewrite assemble_cons. cbn [flat_map]. rewrite map_app.
    destruct (capitalize_nonempty (field_Name field) Hname) as [n Hn].
    rewrite (setField_capitalized trunk _ (field_Text field) n Hn).
    unfold assembly_marker at 1. rewrite Hn.
    destruct (reflect.FieldByName n); cbn [fst snd map app];
      rewrite IH; reflexivity.
Qed.

(** ** How a cycle ends *)

Lemma bind_fst {A B : Type} (m : Exec A) (k : A -> Exec B) :
  fst (bind m k) =
  match snd m with
  | Returned a => (fst m ++ fst (k a))%list
  | Panicked _ => fst m
  end.
Proof. rewrite bind_unfold. destruct (snd m); reflexivity. Qed.

Lemma bind_snd {A B : Type} (m : Exec A) (k : A -> Exec B) :
  snd (bind m k) =
  match snd m with
  | Returned a => snd (k a)
  | Panicked r => Panicked r
  end.
Proof. rewrite bind_unfold. destruct (snd m); reflexivity. Qed.

(** A loop ends in the panic of the first iteration that panics. *)
Lemma for_range_outcome {A : Type} (xs : list A) (body : A -> Exec unit)
    (bad : A -> bool) (r : string) :
  (forall x, snd (body x) = if bad x then Panicked r else Returned tt) ->
  snd (for_range xs body) = if existsb bad xs then Panicked r else Returned tt.
Proof.
  intros H. induction xs as [|x xs IH]; [reflexivity|].
  cbn [for_range existsb]. rewrite bind_snd, H.
  destruct (bad x); [reflexivity | exact IH].
Qed.

Lemma assemble_outcome (fields : list Field) (trunk : Trunk) :
  if existsb unnamed fields
  then snd (assemble fields trunk) = Panicked index_out_of_range
  else exists trunk', snd (assemble fields trunk) = Returned trunk'.
Proof.
  revert trunk. induction fields as [|field fields IH]; intros trunk.
  - exists trunk. reflexivity.
  - cbn [existsb]. rewrite assemble_cons. unfold unnamed at 1.
    destruct (String.eqb (field_Name field) "") eqn:E.
    + apply String.eqb_eq in E. rewrite E. reflexivity.
    + apply String.eqb_neq in E.
      destruct (setField_returns trunk (field_Name field) (field_Text field) E)
        as (trunk1 & err & ->).
      cbn [orb snd]. apply IH.
Qed.

Lemma trunk_row_outcome (row : Row) :
  snd (trunk_row row) =
  if existsb unnamed (row_Field row)
  then Panicked index_out_of_range else Returned tt.
Proof.
  unfold trunk_row. rewrite bind_snd.
  pose proof (assemble_outcome (row_Field row) zero_Trunk) as H.
  destruct (existsb unnamed (row_Field row)).
  - rewrite H. reflexivity.
  - destruct H as [trunk ->].
    destruct (String.eqb (Fqdn trunk) "Group"); [|reflexivity].
    rewrite bind_snd, addTrunkMetrics_counters. reflexivity.
Qed.

(** The same, for panics that differ from one iteration to the next. *)
Lemma for_range_panics {A : Type} (xs : list A) (body : A -> Exec unit)
    (bad : A -> bool) (P : string -> Prop) :
  (forall x, if bad x
             then exists r, snd (body x) = Panicked r /\ P r
             else snd (body x) = Returned tt) ->
  if existsb bad xs
  then exists r, snd (for_range xs body) = Panicked r /\ P r
  else snd (for_range xs body) = Returned tt.
Proof.
  intros H. induction xs as [|x xs IH]; [reflexivity|].
  cbn [for_range existsb]. rewrite bind_snd. specialize (H x).
  destruct (bad x); cbn [orb].
  - destruct H as (r & -> & Hr). exists r. split; [reflexivity | exact Hr].
  - rewrite H. exact IH.
Qed.

Lemma existsb_orb {A : Type} (f g : A -> bool) (xs : list A) :
  existsb (fun x => f x || g x) xs = existsb f xs || existsb g xs.
Proof.
  induction xs as [|x xs IH]; [reflexivity|].
  cbn [existsb]. rewrite IH.
  destruct (f x), (g x), (existsb f xs), (existsb g xs); reflexivity.
Qed.

Lemma collect_table_outcome (table : Table) :
  if (String.eqb (table_Name table) "XBResourceRealTimeStatList"
      && existsb (fun row => existsb unnamed (row_Field row)) (table_Row table))
     || (String.eqb (table_Name table) "system_stat"
         && existsb (fun row => existsb rejected (row_Field row))
              (table_Row table))
  then exists r,
      snd (collect_table table) = Panicked r
      /\ (r = index_out_of_range
          \/ exists field err,
              NewDesc_err ("sansay_" ++ field_Name field) = Some err
              /\ r = Error err)
  else snd (collect_table table) = Returned tt.
Proof.
  unfold collect_table.
  destruct (String.eqb (table_Name table) "system_stat") eqn:E1.
  - apply String.eqb_eq in E1. rewrite E1.
    cbn [String.eqb Ascii.eqb Bool.eqb andb orb].
    apply for_range_panics. intros row.
    apply for_range_panics. intros field.
    pose proof (system_stat_field_outcome field) as H.
    destruct (rejected field); [|exact H].
    destruct H as (err & Herr & ->). exists (Error err).
    split; [reflexivity|]. right. exists field, err.
    split; [exact Herr | reflexivity].
  - cbn [andb]. rewrite orb_false_r.
    destruct (String.eqb (table_Name table) "XBResourceRealTimeStatList");
      [|reflexivity].
    cbn [andb].
    rewrite (for_range_outcome _ trunk_row _ index_out_of_range
               trunk_row_outcome).
    destruct (existsb _ _); [|reflexivity].
    exists index_out_of_range. split; [reflexivity | left; reflexivity].
Qed.

(** The projection of a document ends in a panic exactly when a trunk
    row has a field without a name or a [system_stat] field is
    rejected. *)
Lemma projection_outcome (sansay : Sansay) :
  if unnamed_trunk_field sansay || rejected_stat_field sansay
  then exists r,
      snd (for_range (database_Table (sansay_Database sansay)) collect_table)
      = Panicked r
      /\ (r = index_out_of_range
          \/ exists field err,
              NewDesc_err ("sansay_" ++ field_Name field) = Some err
              /\ r = Error err)
  else snd (for_range (database_Table (sansay_Database sansay)) collect_table)
       = Returned tt.
Proof.
  unfold unnamed_trunk_field, rejected_stat_field.
  rewrite <- existsb_orb.
  apply for_range_panics. exact collect_table_outcome.
Qed.

(** X6. A cycle returns, or panics on the index of an empty name or with
    the error of a descriptor the client library rejects; it panics
    exactly when the fetch and the parse succeeded and either some row of
    some [XBResourceRealTimeStatList] table, group row or not, has a
    field without a name, or some field of a [system_stat] row, other
    than the two state fields, has a text that parses under a name the
    library rejects. *)
Theorem Collect_outcome (c : collector) :
  (snd (Collect c) = Returned tt
   \/ snd (Collect c) = Panicked index_out_of_range
   \/ exists field err,
       NewDesc_err ("sansay_" ++ field_Name field) = Some err
       /\ snd (Collect c) = Panicked (Error err))
  /\ (snd (Collect c) <> Returned tt <->
      exists sansay,
        snd (ScrapeTarget (target c) (username c) (password c))
        = Returned (sansay, None)
        /\ unnamed_trunk_field sansay || rejected_stat_field sansay = true).
Proof.
  destruct (ScrapeTarget_quiet (target c) (username c) (password c))
    as [_ [[sansay err] Hr]].
  assert (H : snd (Collect c) =
              match err with
              | Some _ => Returned tt
              | None =>
                match snd (for_range (database_Table (sansay_Database sansay))
                             collect_table) with
                | Returned _ => Returned tt
                | Panicked r => Panicked r
                end
              end).
  { unfold Collect. rewrite bind_snd, Hr.
    destruct err as [err|]; [reflexivity|].
    rewrite bind_snd. destruct (snd (for_range _ _)); reflexivity. }
  rewrite H, Hr. pose proof (projection_outcome sansay) as Hp.
  destruct err as [err|].
  - split; [left; reflexivity|]. split; [congruence|].
    intros (sansay' & Heq & _). discriminate.
  - destruct (unnamed_trunk_field sansay || rejected_stat_field sansay) eqn:E.
    + destruct Hp as (r & -> & Hcase). split.
      * destruct Hcase as [->|(field & e & He & ->)];
          [right; left; reflexivity|].
        right; right. exists field, e. split; [exact He | reflexivity].
      * split; [|discriminate].
        intros _. exists sansay. split; [reflexivity | exact E].
    + rewrite Hp. split; [left; reflexivity|]. split; [congruence|].
      intros (sansay' & Heq & Hbad). injection Heq as ->. congruence.
Qed.

(** ** What a cycle sends *)

Lemma for_range_Forall {A : Type} (P : Event -> Prop) (xs : list A)
    (body : A -> Exec unit) :
  (forall x, In x xs -> Forall P (fst (body x))) ->
  Forall P (fst (for_range xs body)).
Proof.
  induction xs as [|x xs IH]; intros H; [constructor|].
  cbn [for_range]. rewrite bind_fst.
  pose proof (H x (or_introl eq_refl)) as Hx.
  destruct (snd (body x)); [|exact Hx].
  apply Forall_app. split; [exact Hx|].
  apply IH. intros y Hy. apply H. right. exact Hy.
Qed.

Lemma prefix_append_refl (p s : string) : String.prefix p (p ++ s) = true.
Proof.
  induction p as [|a p IH]; [destruct s; reflexivity|].
  cbn [String.append String.prefix].
  destruct (ascii_dec a a) as [_|H]; [exact IH | contradiction].
Qed.

Lemma system_stat_field_after_fetch (field : Field) :
  Forall after_fetch (fst (system_stat_field field)).
Proof.
  unfold system_stat_field.
  destruct (String.eqb (field_Name field) "ha_pre_state"); [constructor|].
  destruct (String.eqb (field_Name field) "ha_current_state"); [constructor|].
  rewrite addMetric_unfold.
  destruct (ParseFloat (field_Text field)) as [v [err|]]; [constructor|].
  destruct (NewDesc_err _); [constructor|].
  repeat constructor. apply (prefix_append_refl "sansay_").
Qed.

Lemma assemble_after_fetch (fields : list Field) (trunk : Trunk) :
  Forall after_fetch (fst (assemble fields trunk)).
Proof.
  revert trunk. induction fields as [|field fields IH]; intros trunk.
  - constructor.
  - rewrite assemble_cons.
    destruct (setField To_UpperCase trunk (field_Name field) (field_Text field))
      as [[trunk' [err|]]|r]; cbn [fst app].
    + constructor; [repeat constructor | apply IH].
    + apply IH.
    + constructor.
Qed.

Lemma counter_metric_after_fetch (trunk : Trunk)
    (c : reflect.StructField * string) :
  In c counters -> after_fetch (Send (counter_metric trunk c)).
Proof.
  intros Hin. unfold counter_metric.
  destruct (ParseFloat (reflect.String (fst c) trunk)) as [v [err|]].
  - repeat constructor.
  - unfold counters in Hin. cbn [In] in Hin.
    repeat (destruct Hin as [<-|Hin]; [repeat constructor|]). contradiction.
Qed.

Lemma trunk_row_after_fetch (row : Row) :
  Forall after_fetch (fst (trunk_row row)).
Proof.
  unfold trunk_row. rewrite bind_fst.
  pose proof (assemble_after_fetch (row_Field row) zero_Trunk) as Ha.
  destruct (snd (assemble (row_Field row) zero_Trunk)) as [trunk|r];
    [|exact Ha].
  apply Forall_app. split; [exact Ha|].
  destruct (String.eqb (Fqdn trunk) "Group"); [|constructor].
  rewrite bind_fst, addTrunkMetrics_counters. cbn [fst snd ret].
  rewrite app_nil_r. apply Forall_forall. intros e He.
  apply in_map_iff in He. destruct He as (m & <- & Hm).
  apply in_map_iff in Hm. destruct Hm as (c & <- & Hc).
  apply counter_metric_after_fetch. exact Hc.
Qed.

Lemma collect_table_after_fetch (table : Table) :
  Forall after_fetch (fst (collect_table table)).
Proof.
  unfold collect_table.
  destruct (String.eqb (table_Name table) "system_stat").
  - apply for_range_Forall. intros row _.
    apply for_range_Forall. intros field _.
    apply system_stat_field_after_fetch.
  - destruct (String.eqb (table_Name table) "XBResourceRealTimeStatList");
      [|constructor].
    apply for_range_Forall. intros row _. apply trunk_row_after_fetch.
Qed.

(** The trace of a cycle: that of the fetch, then log lines and
    well-formed metrics. *)
Lemma Collect_trace (c : collector) :
  exists rest,
    fst (Collect c)
    = (fst (ScrapeTarget (target c) (username c) (password c)) ++ rest)%list
    /\ Forall after_fetch rest.
Proof.
  destruct (ScrapeTarget_quiet (target c) (username c) (password c))
    as [_ [[sansay err] Hr]].
  unfold Collect. rewrite bind_fst, Hr.
  destruct err as [err|].
  - eexists. split; [reflexivity|]. repeat constructor.
  - eexists. split; [reflexivity|]. rewrite bind_fst.
    pose proof (for_range_Forall after_fetch
                  (database_Table (sansay_Database sansay)) collect_table
                  (fun table _ => collect_table_after_fetch table)) as H.
    destruct (snd (for_range _ collect_table)); [|exact H].
    apply Forall_app. split; [exact H|]. repeat constructor.
Qed.

Lemma after_fetch_sent (rest : list Event) (m : Metric) :
  Forall after_fetch rest -> In m (sent rest) -> well_formed m /\ namespaced m.
Proof.
  intros H. induction H as [|e rest He H IH]; [intros []|].
  destruct e as [lvl kvs|request|m']; cbn [sent flat_map app]; fold (sent rest).
  - exact IH.
  - destruct He.
  - cbn [In]. intros [<-|Hin]; [exact He | exact (IH Hin)].
Qed.

(** X7. Whatever the document holds and however the cycle ends, every
    metric [Collect] sends is either a gauge with as many label values as
    its descriptor has labels, or an invalid metric under the descriptor
    [sansay_error]. *)
Theorem Collect_metrics_well_formed (c : collector) (m : Metric) :
  In m (sent (fst (Collect c))) -> well_formed m.
Proof.
  destruct (Collect_trace c) as (rest & -> & Hrest).
  destruct (ScrapeTarget_quiet (target c) (username c) (password c)) as [Hq _].
  rewrite sent_app, Hq. cbn [app]. intros Hin.
  exact (proj1 (after_fetch_sent rest m Hrest Hin)).
Qed.

(** X8. Every metric [Collect] sends has a name that starts with
    [sansay_]; none has the name of the descriptor that [Describe]
    announces. *)
Theorem Collect_metrics_namespaced (c : collector) (m : Metric) :
  In m (sent (fst (Collect c))) ->
  String.prefix "sansay_" (metric_name m) = true
  /\ forall desc, In desc (Describe c) -> fqName desc <> metric_name m.
Proof.
  destruct (Collect_trace c) as (rest & -> & Hrest).
  destruct (ScrapeTarget_quiet (target c) (username c) (password c)) as [Hq _].
  rewrite sent_app, Hq. cbn [app]. intros Hin.
  pose proof (proj2 (after_fetch_sent rest m Hrest Hin)) as Hns.
  split; [exact Hns|].
  intros desc [<-|[]]. cbn [fqName]. intros Heq.
  unfold namespaced in Hns. rewrite <- Heq in Hns. discriminate.
Qed.

Lemma after_fetch_requests (rest : list Event) :
  Forall after_fetch rest -> requests rest = [].
Proof.
  intros H. induction H as [|e rest He H IH]; [reflexivity|].
  destruct e as [lvl kvs|request|m]; cbn [requests flat_map app];
    fold (requests rest); [exact IH | destruct He | exact IH].
Qed.

(** X9. A cycle makes at most one request, the one of [ScrapeTarget],
    before any metric is sent; it makes none when the URL does not parse
    or the request cannot be built, and nothing is retried. *)
Theorem Collect_one_request (c : collector) :
  requests (fst (Collect c))
  = requests (fst (ScrapeTarget (target c) (username c) (password c)))
  /\ (length (requests (fst (Collect c))) <= 1)%nat
  /\ (exists before after,
        fst (Collect c) = (before ++ after)%list
        /\ sent before = [] /\ requests after = [])
  /\ (forall target',
        target' = (if negb (strings_HasPrefix (target c) "http://")
                      && negb (strings_HasPrefix (target c) "https://")
                   then "http://" ++ target c else target c) ->
        url_Parse target' <> None \/ http_NewRequest "GET" target' <> None ->
        requests (fst (Collect c)) = []).
Proof.
  destruct (Collect_trace c) as (rest & Htrace & Hrest).
  destruct (ScrapeTarget_quiet (target c) (username c) (password c)) as [Hq _].
  pose proof (after_fetch_requests rest Hrest) as Hreq.
  assert (H1 : requests (fst (Collect c))
               = requests (fst (ScrapeTarget (target c) (username c)
                                  (password c)))).
  { rewrite Htrace. unfold requests. rewrite flat_map_app.
    fold (requests rest). rewrite Hreq. apply app_nil_r. }
  split; [exact H1|]. rewrite H1. split; [|split].
  - unfold ScrapeTarget. cbv zeta.
    destruct (url_Parse _) as [err|]; [cbn; lia|].
    destruct (http_NewRequest _ _) as [err|]; [cbn; lia|].
    destruct (client_Do _) as [resp [err|]]; [cbn; lia|].
    destruct (Body resp) as [body [err|]]; [cbn; lia|].
    destruct (xml_Unmarshal body) as [sansay [err|]]; cbn; lia.
  - exists (fst (ScrapeTarget (target c) (username c) (password c))), rest.
    split; [exact Htrace|]. split; [exact Hq | exact Hreq].
  - intros target' -> Hfail. unfold ScrapeTarget. cbv zeta.
    destruct (url_Parse _) as [err|]; [reflexivity|].
    destruct (http_NewRequest _ _) as [err|]; [reflexivity|].
    destruct Hfail as [H|H]; contradiction.
Qed.

(** ** The duration gauge, conversely *)

Lemma system_stat_field_not_duration (field : Field) :
  Forall (fun e => e <> Send duration_gauge) (fst (system_stat_field field)).
Proof.
  unfold system_stat_field.
  destruct (String.eqb (field_Name field) "ha_pre_state"); [constructor|].
  destruct (String.eqb (field_Name field) "ha_current_state"); [constructor|].
  rewrite addMetric_unfold.
  destruct (ParseFloat (field_Text field)) as [v [err|]]; [constructor|].
  destruct (NewDesc_err _); [constructor|].
  constructor; [|constructor].
  unfold duration_gauge, scrape_duration_seconds. congruence.
Qed.

Lemma assemble_not_duration (fields : list Field) (trunk : Trunk) :
  Forall (fun e => e <> Send duration_gauge) (fst (assemble fields trunk)).
Proof.
  revert trunk. induction fields as [|field fields IH]; intros trunk.
  - constructor.
  - rewrite assemble_cons.
    destruct (setField To_UpperCase trunk (field_Name field) (field_Text field))
      as [[trunk' [err|]]|r]; cbn [fst app].
    + constructor; [unfold duration_gauge; congruence | apply IH].
    + apply IH.
    + constructor.
Qed.

Lemma trunk_row_not_duration (row : Row) :
  Forall (fun e => e <> Send duration_gauge) (fst (trunk_row row)).
Proof.
  unfold trunk_row. rewrite bind_fst.
  pose proof (assemble_not_duration (row_Field row) zero_Trunk) as Ha.
  destruct (snd (assemble (row_Field row) zero_Trunk)) as [trunk|r];
    [|exact Ha].
  apply Forall_app. split; [exact Ha|].
  destruct (String.eqb (Fqdn trunk) "Group"); [|constructor].
  rewrite bind_fst, addTrunkMetrics_counters. cbn [fst snd ret].
  rewrite app_nil_r. apply Forall_forall. intros e He.
  apply in_map_iff in He. destruct He as (m & <- & Hm).
  apply in_map_iff in Hm. destruct Hm as (c & <- & _).
  unfold counter_metric, duration_gauge, scrape_duration_seconds.
  destruct (ParseFloat (reflect.String (fst c) trunk)) as [v [err|]];
    congruence.
Qed.

Lemma collect_table_not_duration (table : Table) :
  Forall (fun e => e <> Send duration_gauge) (fst (collect_table table)).
Proof.
  unfold collect_table.
  destruct (String.eqb (table_Name table) "system_stat").
  - apply for_range_Forall. intros row _.
    apply for_range_Forall. intros field _.
    apply system_stat_field_not_duration.
  - destruct (String.eqb (table_Name table) "XBResourceRealTimeStatList");
      [|constructor].
    apply for_range_Forall. intros row _. apply trunk_row_not_duration.
Qed.

Lemma not_duration_sent (evs : list Event) :
  Forall (fun e => e <> Send duration_gauge) evs ->
  ~ In duration_gauge (sent evs).
Proof.
  intros H. induction H as [|e evs He H IH]; [intros []|].
  destruct e as [lvl kvs|request|m]; cbn [sent flat_map app]; fold (sent evs);
    [exact IH | exact IH |].
  cbn [In]. intros [->|Hin]; [apply He; reflexivity | exact (IH Hin)].
Qed.

(** X10. The duration gauge, the one that carries the elapsed time, is
    sent exactly in the cycles whose fetch and parse succeed and whose
    document has neither an unnamed field in a trunk row nor a
    [system_stat] field with a text that parses under a name the client
    library rejects; the projection itself never sends it, whatever the
    wire names are. *)
Theorem duration_gauge_sent_iff (c : collector) :
  In duration_gauge (sent (fst (Collect c))) <->
  exists sansay,
    snd (ScrapeTarget (target c) (username c) (password c))
    = Returned (sansay, None)
    /\ unnamed_trunk_field sansay = false
    /\ rejected_stat_field sansay = false.
Proof.
  destruct (ScrapeTarget_quiet (target c) (username c) (password c))
    as [Hq [[sansay err] Hr]].
  rewrite Hr. unfold Collect. rewrite bind_fst, Hr, sent_app, Hq. cbn [app].
  destruct err as [err|].
  - split.
    + cbn. unfold duration_gauge. intros [H|[]]. discriminate.
    + intros (sansay' & Heq & _). discriminate.
  - rewrite bind_fst.
    pose proof (projection_outcome sansay) as Hout.
    pose proof (not_duration_sent _
                  (for_range_Forall _ (database_Table (sansay_Database sansay))
                     collect_table
                     (fun table _ => collect_table_not_duration table)))
      as Hno.
    destruct (unnamed_trunk_field sansay || rejected_stat_field sansay) eqn:E.
    + destruct Hout as (r & -> & _).
      split; [intros H; contradiction|].
      intros (sansay' & Heq & Hun & Hrej). injection Heq as ->.
      rewrite Hun, Hrej in E. discriminate.
    + rewrite Hout. apply orb_false_elim in E. split.
      * intros _. exists sansay. split; [reflexivity | exact E].
      * intros _. rewrite sent_app. apply in_or_app. right. left. reflexivity.
Qed.

(** ** Missing fields *)

(** X11. An attribute that no field of the row addresses keeps the value
    it had: in the record assembled from [Trunk{}] it is the empty
    string, so that a group row without [trunkId] or [alias] field is
    labeled with empty strings and a counter without field is parsed from
    the empty string. *)
Theorem assemble_missing_field (fields : list Field) (trunk : Trunk)
    (fv : reflect.StructField) :
  Forall (fun field => field_Name field <> "") fields ->
  Forall (fun field => names_attribute fv field = false) fields ->
  exists evs trunk',
    assemble fields trunk = (evs, Returned trunk')
    /\ reflect.String fv trunk' = reflect.String fv trunk
    /\ (trunk = zero_Trunk -> reflect.String fv trunk' = "").
Proof.
  intros Hall Hmiss. revert trunk.
  induction Hall as [|field fields Hname Hall IH]; intros trunk.
  - exists [], trunk. split; [reflexivity|]. split; [reflexivity|].
    intros ->. destruct fv; reflexivity.
  - inversion Hmiss as [|? ? Hfield Hrest]; subst.
    destruct (setField_attribute trunk field Hname) as (trunk1 & err & Hset & Hattr).
    destruct (IH Hrest trunk1) as (evs & trunk' & Hrun & Hsame & _).
    rewrite assemble_cons, Hset, Hrun. cbn [fst snd].
    eexists _, trunk'. split; [reflexivity|].
    assert (H : reflect.String fv trunk' = reflect.String fv trunk).
    { rewrite Hsame, Hattr, Hfield. reflexivity. }
    split; [exact H|]. intros ->. rewrite H. destruct fv; reflexivity.
Qed.

(** ** The errors of the fetch *)

(** X12. The error [ScrapeTarget] returns is the one it has just logged:
    the last event of a failed fetch is a log line that carries the
    returned error. *)
Theorem ScrapeTarget_error_logged (target username password : string)
    (sansay : Sansay) (err : error) :
  snd (ScrapeTarget target username password) = Returned (sansay, Some err) ->
  exists evs lvl msg,
    fst (ScrapeTarget target username password)
    = (evs ++ [Log lvl [("msg", LogString msg); ("err", LogError err)]])%list.
Proof.
  unfold ScrapeTarget. cbv zeta.
  destruct (url_Parse _) as [e|].
  { cbn. intros H. injection H as _ <-. exists []. eexists _, _. reflexivity. }
  destruct (http_NewRequest _ _) as [e|].
  { cbn. intros H. injection H as _ <-. exists []. eexists _, _. reflexivity. }
  destruct (client_Do _) as [resp [e|]].
  { cbn. intros H. injection H as _ <-. eexists [_], _, _. reflexivity. }
  destruct (Body resp) as [body [e|]].
  { cbn. intros H. injection H as _ <-. eexists [_; _], _, _. reflexivity. }
  destruct (xml_Unmarshal body) as [sansay' [e|]].
  - cbn. intros H. injection H as _ <-. eexists [_; _], _, _. reflexivity.
  - cbn. intros H. discriminate.
Qed.

End Exporter.

Arguments ConstMetric {float64} desc valueType value labelValues.
Arguments InvalidMetric {float64} desc err.
Arguments Log {float64} lvl keyvals.
Arguments HttpDo {float64} request.
Arguments Send {float64} m.
Arguments sent {float64} evs.
Arguments gauges {float64} evs.
Arguments invalids {float64} evs.
Arguments durations {float64} evs.
Arguments requests {float64} evs.
Arguments redact {float64} e.
Arguments metric_name {float64} m.
Arguments is_gauge {float64} m.
Arguments is_invalid {float64} m.
Arguments is_duration {float64} m.

(** ** The status code *)

Section StatusCode.

Variable float64 : Type.
Variable ParseFloat : string -> float64 * option error.
Variable To_UpperCase : rune -> rune.
Variable ToLower_unicode : string -> string.
Variable url_Parse : string -> option error.
Variable http_NewRequest : string -> string -> option error.
Variable xml_Unmarshal : string -> Sansay * option error.
Variable elapsed : float64.
Variable NewDesc_err : string -> option error.

(** Two servers that answer every request with the same body (and fail
    on the same requests), whatever status each of them answers with. *)
Variables client_Do client_Do' : Request -> Response * option error.

Hypothesis same_body :
  forall request,
    snd (client_Do request) = snd (client_Do' request)
    /\ Body (fst (client_Do request)) = Body (fst (client_Do' request)).

(** C8. Against two servers whose responses differ in the status code
    only, [ScrapeTarget] returns the same document and error, and its
    traces differ in the logged status code only; [Collect] sends the
    same metrics. *)
Theorem status_code_logged_only (c : collector) :
  snd (ScrapeTarget float64 url_Parse http_NewRequest client_Do xml_Unmarshal
         (target c) (username c) (password c))
  = snd (ScrapeTarget float64 url_Parse http_NewRequest client_Do' xml_Unmarshal
           (target c) (username c) (password c))
  /\ map redact
       (fst (ScrapeTarget float64 url_Parse http_NewRequest client_Do
               xml_Unmarshal (target c) (username c) (password c)))
     = map redact
         (fst (ScrapeTarget float64 url_Parse http_NewRequest client_Do'
                 xml_Unmarshal (target c) (username c) (password c)))
  /\ sent (fst (Collect float64 ParseFloat To_UpperCase ToLower_unicode url_Parse
                  http_NewRequest client_Do xml_Unmarshal elapsed
                    NewDesc_err c))
     = sent (fst (Collect float64 ParseFloat To_UpperCase ToLower_unicode url_Parse
                    http_NewRequest client_Do' xml_Unmarshal elapsed
                      NewDesc_err c)).
Proof.
  assert (Hscrape :
    snd (ScrapeTarget float64 url_Parse http_NewRequest client_Do xml_Unmarshal
           (target c) (username c) (password c))
    = snd (ScrapeTarget float64 url_Parse http_NewRequest client_Do'
             xml_Unmarshal (target c) (username c) (password c))
    /\ map redact
         (fst (ScrapeTarget float64 url_Parse http_NewRequest client_Do
                 xml_Unmarshal (target c) (username c) (password c)))
       = map redact
           (fst (ScrapeTarget float64 url_Parse http_NewRequest client_Do'
                   xml_Unmarshal (target c) (username c) (password c)))).
  { unfold ScrapeTarget. cbv zeta.
    destruct (url_Parse _) as [err|]; [split; reflexivity|].
    destruct (http_NewRequest _ _) as [err|]; [split; reflexivity|].
    match goal with
    | |- context [client_Do ?r] => destruct (same_body r) as [Herr Hbody]
    end.
    destruct (client_Do _) as [resp [err|]];
      destruct (client_Do' _) as [resp' [err'|]];
      cbn [fst snd] in Herr, Hbody; try discriminate.
    - injection Herr as <-. split; reflexivity.
    - rewrite Hbody. destruct (Body resp') as [body [err|]];
        [split; reflexivity|].
      destruct (xml_Unmarshal body) as [sansay [err|]]; split; reflexivity. }
  destruct Hscrape as [H1 H2].
  split; [exact H1|]. split; [exact H2|].
  unfold Collect. rewrite !bind_unfold. rewrite <- H1.
  destruct (ScrapeTarget_quiet float64 url_Parse http_NewRequest client_Do
              xml_Unmarshal (target c) (username c) (password c))
    as [Hq [r Hr]].
  destruct (ScrapeTarget_quiet float64 url_Parse http_NewRequest client_Do'
              xml_Unmarshal (target c) (username c) (password c))
    as [Hq' _].
  rewrite Hr. cbn [fst]. rewrite !sent_app, Hq, Hq'. reflexivity.
Qed.

End StatusCode.

(** ** The clock *)

Section Clock.

Variable float64 : Type.
Variable ParseFloat : string -> float64 * option error.
Variable To_UpperCase : rune -> rune.
Variable ToLower_unicode : string -> string.
Variable url_Parse : string -> option error.
Variable http_NewRequest : string -> string -> option error.
Variable client_Do : Request -> Response * option error.
Variable xml_Unmarshal : string -> Sansay * option error.
Variable NewDesc_err : string -> option error.

(** Two readings of the clock at the end of the cycle. *)
Variables elapsed elapsed' : float64.

(** X15. Against the same device two cycles differ at most in the value
    of the duration gauge: they end alike, and their traces are equal, or
    equal up to a last event that sends the duration gauge with the
    elapsed time of each. *)
Theorem Collect_twice (c : collector) :
  snd (Collect float64 ParseFloat To_UpperCase ToLower_unicode url_Parse
         http_NewRequest client_Do xml_Unmarshal elapsed NewDesc_err c)
  = snd (Collect float64 ParseFloat To_UpperCase ToLower_unicode url_Parse
           http_NewRequest client_Do xml_Unmarshal elapsed' NewDesc_err c)
  /\ exists evs,
      (fst (Collect float64 ParseFloat To_UpperCase ToLower_unicode url_Parse
              http_NewRequest client_Do xml_Unmarshal elapsed
                NewDesc_err c) = evs
       /\ fst (Collect float64 ParseFloat To_UpperCase ToLower_unicode
                 url_Parse http_NewRequest client_Do xml_Unmarshal elapsed'
                   NewDesc_err c)
          = evs)
      \/ (fst (Collect float64 ParseFloat To_UpperCase ToLower_unicode url_Parse
                 http_NewRequest client_Do xml_Unmarshal elapsed NewDesc_err c)
          = (evs ++ [Send (duration_gauge float64 elapsed)])%list
          /\ fst (Collect float64 ParseFloat To_UpperCase ToLower_unicode
                    url_Parse http_NewRequest client_Do xml_Unmarshal elapsed'
                      NewDesc_err c)
             = (evs ++ [Send (duration_gauge float64 elapsed')])%list).
Proof.
  unfold Collect. rewrite !bind_unfold.
  destruct (ScrapeTarget float64 url_Parse http_NewRequest client_Do
              xml_Unmarshal (target c) (username c) (password c))
    as [sevs [[sansay [err|]]|r]]; cbn [fst snd].
  - split; [reflexivity|]. eexists. left. split; reflexivity.
  - rewrite !bind_unfold.
    destruct (for_range _ _) as [pevs [[]|r]]; cbn [fst snd].
    + split; [reflexivity|]. exists (sevs ++ pevs)%list. right.
      rewrite <- !app_assoc. split; reflexivity.
    + split; [reflexivity|]. eexists. left. split; reflexivity.
  - split; [reflexivity|]. eexists. left. split; reflexivity.
Qed.

End Clock.

(** * The model on concrete inputs *)

Local Abbreviation sample_assemble :=
  (assemble Sample.float64 Sample.To_UpperCase).
Local Abbreviation sample_trunk_row :=
  (trunk_row Sample.float64 Sample.ParseFloat Sample.To_UpperCase
     Sample.ToLower_unicode).
Local Abbreviation sample_collect_table :=
  (collect_table Sample.float64 Sample.ParseFloat Sample.To_UpperCase
     Sample.ToLower_unicode Sample.NewDesc_err).
Local Abbreviation sample_ScrapeTarget client_Do doc :=
  (ScrapeTarget Sample.float64 Sample.url_Parse Sample.http_NewRequest
     client_Do (Sample.xml_Unmarshal doc)).
Local Abbreviation sample_Collect client_Do doc :=
  (Collect Sample.float64 Sample.ParseFloat Sample.To_UpperCase
     Sample.ToLower_unicode Sample.url_Parse Sample.http_NewRequest
     client_Do (Sample.xml_Unmarshal doc) Sample.elapsed Sample.NewDesc_err).


(** C2, as claimed: the field [cpu-load] of a [system_stat] row is none
    of the two state fields and its text parses, yet no gauge is made of
    it, since the library rejects the name [sansay_cpu-load]; the cycle
    panics there, before the field [cpu] is read. *)
Lemma hyphenated_field_no_gauge :
  Sample.ParseFloat "3" = (3, None)
  /\ Sample.NewDesc_err "sansay_cpu-load" <> None
  /\ fst (sample_collect_table Sample.system_stat_hyphen) = []
  /\ exists r, snd (sample_collect_table Sample.system_stat_hyphen)
    = Panicked r.
Proof.
  split; [reflexivity|]. split; [discriminate|]. split; [reflexivity|].
  eexists. reflexivity.
Qed.

(** C2 (amended), on a [system_stat] row with a number, a state field and
    a field that is no number: one gauge. *)
Lemma system_stat_projection_witness :
  sample_collect_table Sample.system_stat =
  ([Send (ConstMetric (NewDesc "sansay_cpu" "" []) GaugeValue 3 [])],
   Returned tt).
Proof.
  assert (Hacc : forall row field,
             In row (table_Row Sample.system_stat) ->
             In field (row_Field row) ->
             rejected Sample.float64 Sample.ParseFloat Sample.NewDesc_err field
             = false).
  { intros row field Hrow Hfield. cbn in Hrow. destruct Hrow as [<-|[]].
    cbn in Hfield.
    repeat (destruct Hfield as [<-|Hfield]; [reflexivity|]). contradiction. }
  rewrite (proj1 (system_stat_projection Sample.float64 Sample.ParseFloat
                    Sample.To_UpperCase Sample.ToLower_unicode
                    Sample.NewDesc_err Sample.system_stat eq_refl Hacc)).
  reflexivity.
Defined.

(** C3, on a device that refuses the connection: one error marker. *)
Lemma scrape_failure_single_error_witness :
  sent (fst (sample_Collect Sample.client_Do_refused (Sample.document [])
               (mkCollector Sample.sbc "admin" "secret")))
  = [InvalidMetric sansay_error (errors_New "connection refused")].
Proof.
  apply (scrape_failure_single_error Sample.float64 Sample.ParseFloat
           Sample.To_UpperCase Sample.ToLower_unicode Sample.url_Parse
           Sample.http_NewRequest Sample.client_Do_refused
           (Sample.xml_Unmarshal (Sample.document [])) Sample.elapsed
           Sample.NewDesc_err (mkCollector Sample.sbc "admin" "secret")
           _ zero_Sansay (errors_New "connection refused") eq_refl).
Defined.

(** C4, on a document whose trunk row has a field without a name, ahead
    of a [system_stat] table: the cycle ends in the panic after the fetch,
    with no metric sent, the duration gauge included. *)
Lemma unnamed_field_aborts_cycle :
  sample_Collect (Sample.client_Do 200 "<mysqldump/>")
    (Sample.document [Sample.unnamed_table; Sample.system_stat])
    (mkCollector Sample.sbc "admin" "secret")
  = ([HttpDo (mkRequest "GET" "http://sbc.example.net:8888" ("admin", "secret"));
      Log LevelInfo [("msg", LogString "Received HTTP response");
                     ("status_code", LogInt 200)]],
     Panicked index_out_of_range).
Proof. reflexivity. Qed.

(** The same end for a document whose [system_stat] row has the field
    [cpu-load], ahead of a trunk table: the cycle ends in the panic of
    [MustNewConstMetric] after the fetch, with no metric sent, the
    duration gauge included. *)
Lemma rejected_field_aborts_cycle :
  exists err,
    Sample.NewDesc_err "sansay_cpu-load" = Some err
    /\ sample_Collect (Sample.client_Do 200 "<mysqldump/>")
         (Sample.document [Sample.system_stat_hyphen; Sample.trunk_table])
         (mkCollector Sample.sbc "admin" "secret")
       = ([HttpDo (mkRequest "GET" "http://sbc.example.net:8888"
                     ("admin", "secret"));
           Log LevelInfo [("msg", LogString "Received HTTP response");
                          ("status_code", LogInt 200)]],
          Panicked (Error err)).
Proof. eexists. split; reflexivity. Qed.

(** The names of the nine gauges the exporter builds from literals are
    accepted under the rule of the stand-in. *)
Lemma literal_names_accepted :
  forallb Sample.IsValidMetricName
    ("sansay_scrape_duration_seconds" :: map snd counters) = true.
Proof. reflexivity. Qed.

(** C5, as claimed: the first [fqdn] field of the row holds ["Detail"],
    and the assembled record holds ["Group"], the value of the second. *)
Lemma first_field_overridden :
  find (names_attribute Sample.To_UpperCase reflect.fFqdn) Sample.duplicate_fqdn
  = Some (mkField "Detail" "fqdn")
  /\ sample_assemble Sample.duplicate_fqdn zero_Trunk
     = ([], Returned (mkTrunk "" "" "Group" "" "" "" "" "" "" "" ""))
  /\ "Group" <> "Detail".
Proof. repeat split. discriminate. Qed.

(** C5 (amended), on the same row. *)
Lemma assemble_last_field_witness :
  exists evs trunk,
    sample_assemble Sample.duplicate_fqdn zero_Trunk = (evs, Returned trunk)
    /\ Fqdn trunk = "Group".
Proof.
  destruct (assemble_last_field Sample.float64 Sample.To_UpperCase
              Sample.duplicate_fqdn zero_Trunk) as (evs & trunk & Ha & Hlast).
  - repeat constructor; discriminate.
  - exists evs, trunk. split; [exact Ha|]. exact (Hlast reflect.fFqdn).
Defined.

(** C6, as claimed: a [system_stat] field named
    [scrape_duration_seconds] makes a second gauge with the name of the
    duration gauge, in a cycle whose fetch and parse succeed. *)
Lemma two_duration_gauges :
  snd (sample_ScrapeTarget (Sample.client_Do 200 "<mysqldump/>")
         (Sample.document [Sample.system_stat_duration])
         Sample.sbc "admin" "secret")
  = Returned (Sample.document [Sample.system_stat_duration], None)
  /\ filter is_gauge
       (durations
          (fst (sample_Collect (Sample.client_Do 200 "<mysqldump/>")
                  (Sample.document [Sample.system_stat_duration])
                  (mkCollector Sample.sbc "admin" "secret"))))
     = [ConstMetric (NewDesc "sansay_scrape_duration_seconds" "" [])
          GaugeValue 1 [];
        ConstMetric scrape_duration_seconds GaugeValue Sample.elapsed []].
Proof. split; reflexivity. Qed.

(** C6 (amended), on a document with the three kinds of table. *)
Lemma duration_gauge_last_witness :
  durations
    (fst (sample_Collect (Sample.client_Do 200 "<mysqldump/>")
            (Sample.document
               [Sample.system_stat; Sample.trunk_table; Sample.other_table])
            (mkCollector Sample.sbc "admin" "secret")))
  = [ConstMetric scrape_duration_seconds GaugeValue Sample.elapsed []].
Proof.
  destruct (duration_gauge_last Sample.float64 Sample.ParseFloat
              Sample.To_UpperCase Sample.ToLower_unicode Sample.url_Parse
              Sample.http_NewRequest (Sample.client_Do 200 "<mysqldump/>")
              (Sample.xml_Unmarshal
                 (Sample.document
                    [Sample.system_stat; Sample.trunk_table; Sample.other_table]))
              Sample.elapsed Sample.NewDesc_err
              (mkCollector Sample.sbc "admin" "secret")
              _ _ eq_refl) as (_ & _ & H).
  - intros table row field Ht _ Hr Hf. cbn in Ht.
    destruct Ht as [<-|[<-|[<-|[]]]]; cbn in Hr;
      destruct Hr as [<-|[]]; cbn in Hf;
      repeat (destruct Hf as [<-|Hf]; [discriminate|]); contradiction.
  - intros table row field Ht _ Hr Hf. cbn in Ht.
    destruct Ht as [<-|[<-|[<-|[]]]]; cbn in Hr;
      destruct Hr as [<-|[]]; cbn in Hf;
      repeat (destruct Hf as [<-|Hf]; [reflexivity|]); contradiction.
  - apply H. intros table row field Ht _ Hr Hf. cbn in Ht.
    destruct Ht as [<-|[<-|[<-|[]]]]; cbn in Hr;
      destruct Hr as [<-|[]]; cbn in Hf;
      repeat (destruct Hf as [<-|Hf]; [discriminate|]); contradiction.
Defined.

(** C7, on a table the exporter does not know. *)
Lemma unknown_table_skipped_witness :
  sample_collect_table Sample.other_table = ([], Returned tt).
Proof.
  apply (unknown_table_skipped Sample.float64 Sample.ParseFloat
           Sample.To_UpperCase Sample.ToLower_unicode Sample.NewDesc_err
           Sample.other_table);
    discriminate.
Defined.

(** C8, on a device that answers 200 and one that answers 503 with the
    same body. *)
Lemma status_code_logged_only_witness :
  snd (sample_ScrapeTarget (Sample.client_Do 200 "<mysqldump/>")
         (Sample.document [Sample.system_stat]) Sample.sbc "admin" "secret")
  = snd (sample_ScrapeTarget (Sample.client_Do 503 "<mysqldump/>")
           (Sample.document [Sample.system_stat]) Sample.sbc "admin" "secret").
Proof.
  apply (status_code_logged_only Sample.float64 Sample.ParseFloat
           Sample.To_UpperCase Sample.ToLower_unicode Sample.url_Parse
           Sample.http_NewRequest
           (Sample.xml_Unmarshal (Sample.document [Sample.system_stat]))
           Sample.elapsed Sample.NewDesc_err
           (Sample.client_Do 200 "<mysqldump/>")
           (Sample.client_Do 503 "<mysqldump/>")
           (fun request => conj eq_refl eq_refl)
           (mkCollector Sample.sbc "admin" "secret")).
Defined.

(** C9, as claimed: a target with the scheme [ftp] is not used unchanged,
    it is requested behind ["http://"]. *)
Lemma other_scheme_prefixed :
  has_scheme "ftp://sbc.example.net" = true
  /\ requests
       (fst (sample_ScrapeTarget (Sample.client_Do 200 "<mysqldump/>")
               (Sample.document []) "ftp://sbc.example.net" "admin" "secret"))
     = [mkRequest "GET" "http://ftp://sbc.example.net" ("admin", "secret")]
  /\ "http://ftp://sbc.example.net" <> "ftp://sbc.example.net".
Proof. repeat split. discriminate. Qed.

(** C9 (amended), on a bare host and port. *)
Lemma request_target_witness :
  req_URL (mkRequest "GET" "http://sbc.example.net:8888" ("admin", "secret"))
  = "http://" ++ Sample.sbc.
Proof.
  apply (request_target Sample.float64 Sample.url_Parse Sample.http_NewRequest
           (Sample.client_Do 200 "<mysqldump/>")
           (Sample.xml_Unmarshal (Sample.document []))
           Sample.sbc "admin" "secret"
           (mkRequest "GET" "http://sbc.example.net:8888" ("admin", "secret"))
           (or_introl eq_refl)); reflexivity.
Defined.

(** C10, on the wire name [numOrig]. *)
Lemma field_mapper_frame_witness :
  getField Sample.To_UpperCase
    (mkTrunk "T1" "A1" "Group" "10" "11" "12" "13" "14" "15" "16" "17")
    "numOrig"
  = Returned
      (mkTrunk "T1" "A1" "Group" "10" "11" "12" "13" "14" "15" "16" "17",
       ("10", None)).
Proof.
  apply (field_mapper_frame Sample.To_UpperCase
           (mkTrunk "T1" "A1" "Group" "10" "11" "12" "13" "14" "15" "16" "17")
           "numOrig" "42" "NumOrig" reflect.fNumOrig eq_refl eq_refl).
Defined.

(** * The further properties on concrete inputs *)

Arguments well_formed {float64} m.
Arguments namespaced {float64} m.
Arguments after_fetch {float64} e.

(** X1, on the wire name [numOrig]. *)
Lemma set_then_get_witness :
  getField Sample.To_UpperCase
    (mkTrunk "" "" "" "42" "" "" "" "" "" "" "") "numOrig"
  = Returned (mkTrunk "" "" "" "42" "" "" "" "" "" "" "", ("42", None)).
Proof.
  apply (proj1 (set_then_get Sample.To_UpperCase zero_Trunk
                  (mkTrunk "" "" "" "42" "" "" "" "" "" "" "")
                  "numOrig" "42" eq_refl)).
Defined.

(** X2, on a name the record does not have. *)
Lemma field_mapper_errors_witness :
  exists v' err,
    setField Sample.To_UpperCase zero_Trunk "bogus" "1" = Returned (v', err)
    /\ (err <> None ->
        v' = zero_Trunk
        /\ err = Some (errors_New "not a field name: Bogus")).
Proof.
  destruct (field_mapper_errors Sample.To_UpperCase zero_Trunk "bogus" "1")
    as (n & v' & err & s & err' & Hn & Hset & _ & _ & _ & Herr);
    [discriminate|].
  exists v', err. split; [exact Hset|]. intros H.
  destruct (Herr H) as (Hv & _ & He & _).
  injection Hn as <-. split; [exact Hv | exact He].
Defined.

(** X3, on the wire name [numOrig]. *)
Lemma capitalize_ascii_witness :
  capitalize Sample.To_UpperCase "numOrig" = Returned "NumOrig".
Proof.
  apply (proj1 (capitalize_ascii Sample.To_UpperCase "n" "umOrig" eq_refl)).
Defined.

(** X4, on [trunkId] and [alias]. *)
Lemma setField_commute_witness :
  exists v2,
    setField Sample.To_UpperCase zero_Trunk "alias" "A1" = Returned (v2, None)
    /\ setField Sample.To_UpperCase v2 "trunkId" "T1"
       = Returned (mkTrunk "T1" "A1" "" "" "" "" "" "" "" "" "", None).
Proof.
  apply (setField_commute Sample.To_UpperCase zero_Trunk
           (mkTrunk "T1" "" "" "" "" "" "" "" "" "" "")
           (mkTrunk "T1" "A1" "" "" "" "" "" "" "" "" "")
           "trunkId" "T1" "alias" "A1" None None);
    [intros H; cbv in H; discriminate H | reflexivity | reflexivity].
Defined.

(** X5, on a row with one field the record does not have. *)
Lemma assemble_markers_witness :
  fst (sample_assemble
         [mkField "Group" "fqdn"; mkField "x" "bogus"; mkField "T1" "trunkId"]
         zero_Trunk)
  = [Send (InvalidMetric sansay_error (errors_New "not a field name: Bogus"))].
Proof.
  rewrite (assemble_markers Sample.float64 Sample.To_UpperCase);
    [reflexivity | repeat constructor; discriminate].
Defined.

(** X7, on the gauge of a [system_stat] field. *)
Lemma Collect_metrics_well_formed_witness :
  well_formed (ConstMetric (NewDesc "sansay_cpu" "" []) GaugeValue 3 []
               : Metric Sample.float64).
Proof.
  apply (Collect_metrics_well_formed Sample.float64 Sample.ParseFloat
           Sample.To_UpperCase Sample.ToLower_unicode Sample.url_Parse
           Sample.http_NewRequest (Sample.client_Do 200 "<mysqldump/>")
           (Sample.xml_Unmarshal (Sample.document [Sample.system_stat]))
           Sample.elapsed Sample.NewDesc_err
             (mkCollector Sample.sbc "admin" "secret")).
  left. reflexivity.
Defined.

(** X8, on the same gauge. *)
Lemma Collect_metrics_namespaced_witness :
  String.prefix "sansay_" "sansay_cpu" = true.
Proof.
  apply (proj1 (Collect_metrics_namespaced Sample.float64 Sample.ParseFloat
                  Sample.To_UpperCase Sample.ToLower_unicode Sample.url_Parse
                  Sample.http_NewRequest (Sample.client_Do 200 "<mysqldump/>")
                  (Sample.xml_Unmarshal (Sample.document [Sample.system_stat]))
                  Sample.elapsed Sample.NewDesc_err
                    (mkCollector Sample.sbc "admin" "secret")
                  (ConstMetric (NewDesc "sansay_cpu" "" []) GaugeValue 3 [])
                  (or_introl eq_refl))).
Defined.

(** X11, on a group row without [trunkId] field. *)
Lemma assemble_missing_field_witness :
  exists evs trunk,
    sample_assemble [mkField "Group" "fqdn"] zero_Trunk = (evs, Returned trunk)
    /\ TrunkId trunk = "".
Proof.
  destruct (assemble_missing_field Sample.float64 Sample.To_UpperCase
              [mkField "Group" "fqdn"] zero_Trunk reflect.fTrunkId)
    as (evs & trunk & H & _ & H0).
  - repeat constructor; discriminate.
  - repeat constructor.
  - exists evs, trunk. split; [exact H | exact (H0 eq_refl)].
Defined.

(** X12, on a device that refuses the connection. *)
Lemma ScrapeTarget_error_logged_witness :
  exists evs lvl msg,
    fst (sample_ScrapeTarget Sample.client_Do_refused (Sample.document [])
           Sample.sbc "admin" "secret")
    = (evs ++ [Log lvl [("msg", LogString msg);
                        ("err", LogError (errors_New "connection refused"))]])%list.
Proof.
  apply (ScrapeTarget_error_logged Sample.float64 Sample.url_Parse
           Sample.http_NewRequest Sample.client_Do_refused
           (Sample.xml_Unmarshal (Sample.document []))
           Sample.sbc "admin" "secret" zero_Sansay
           (errors_New "connection refused") eq_refl).
Defined.

(** X14, on a bare host and port. *)
Lemma ScrapeTarget_prefixed_witness :
  sample_ScrapeTarget (Sample.client_Do 200 "<mysqldump/>") (Sample.document [])
    Sample.sbc "admin" "secret"
  = sample_ScrapeTarget (Sample.client_Do 200 "<mysqldump/>")
      (Sample.document []) ("http://" ++ Sample.sbc) "admin" "secret".
Proof.
  apply (ScrapeTarget_prefixed Sample.float64 Sample.url_Parse
           Sample.http_NewRequest (Sample.client_Do 200 "<mysqldump/>")
           (Sample.xml_Unmarshal (Sample.document []))
           Sample.sbc "admin" "secret"); reflexivity.
Defined.
